(** * The in-memory REST API of [python_test/back/app.py]

    A shallow embedding of the Flask handlers over the two process-wide
    dictionaries [users_db] and [items_db], and the properties of the
    CRUD contract that hold of them.

    Conventions of the embedding.
    - A Python [str] is a Rocq [string] holding its UTF-8 encoding.
    - The value returned by [request.get_json()] is a [json]; Python's
      [None] is [JNull].
    - A Python [dict] is an association list in insertion order, the
      order in which [values()] iterates.
    - A handler is a computation in a state-and-exception monad over the
      [world]; an exception that escapes a handler is turned into the
      response of the 500 error handler by [serve].
    - A handler is modelled from the point where [request.get_json()]
      has returned; what Flask answers to a body it cannot parse is its
      own business.
    - [logger] calls and the response headers added after each request do
      not touch the stores and are left out, and so are the routes [/]
      and [/health], which only read the clock. *)

From Stdlib Require Import List String Ascii ZArith Bool Arith Lia.
From Stdlib Require Import DecimalString DecimalNat DecimalFacts.
From Stdlib Require Import Floats.SpecFloat.
Import ListNotations.

Local Open Scope string_scope.
Local Open Scope list_scope.

(** ** Python values *)

Module Py.

(** The exceptions that the built-in operations used by the handlers raise. *)
Inductive exn : Type :=
| TypeError
| AttributeError
| ValueError
| OverflowError
| KeyError.

#[local] Set Warnings "-register-all".

(** What [json.loads] produces: [None], [bool], [int], [float] (a
    binary64 value), [str], [list] and [dict] with string keys. *)
Inductive json : Type :=
| JNull
| JBool (b : bool)
| JInt (n : Z)
| JFloat (f : spec_float)
| JStr (s : string)
| JArr (l : list json)
| JObj (kvs : list (string * json)).

(** [bool(v)]: the truth value Python gives to [v] in [if v] and [not v]. *)
Definition truthy (v : json) : bool :=
  match v with
  | JNull => false
  | JBool b => b
  | JInt n => negb (Z.eqb n 0)
  | JFloat (S754_zero _) => false
  | JFloat _ => true
  | JStr s => negb (String.eqb s "")
  | JArr l => match l with [] => false | _ :: _ => true end
  | JObj kvs => match kvs with [] => false | _ :: _ => true end
  end.

(** Key lookup in the association list of a [dict]. *)
Fixpoint assoc (k : string) (kvs : list (string * json)) : option json :=
  match kvs with
  | [] => None
  | (k', v) :: rest => if String.eqb k k' then Some v else assoc k rest
  end.

(** [needle in hay] on two [str]: [needle] occurs as a substring. *)
Fixpoint str_contains (needle hay : string) : bool :=
  String.prefix needle hay
  || match hay with
     | EmptyString => false
     | String _ rest => str_contains needle rest
     end.

(** [x == s] for a [str] [s]: only an equal [str] compares equal. *)
Definition eq_str (s : string) (x : json) : bool :=
  match x with
  | JStr s' => String.eqb s s'
  | _ => false
  end.

(** [key in data]. [None], [bool], [int] and [float] are not iterable. *)
Definition contains (key : string) (data : json) : exn + bool :=
  match data with
  | JObj kvs => inr (match assoc key kvs with Some _ => true | None => false end)
  | JArr l => inr (existsb (eq_str key) l)
  | JStr s => inr (str_contains key s)
  | JNull | JBool _ | JInt _ | JFloat _ => inl TypeError
  end.

(** [data.get(key, default)]: only a [dict] has the method. *)
Definition get (data : json) (key : string) (default : json) : exn + json :=
  match data with
  | JObj kvs => inr (match assoc key kvs with Some v => v | None => default end)
  | _ => inl AttributeError
  end.

(** [data[key]] with a [str] key. *)
Definition getitem (data : json) (key : string) : exn + json :=
  match data with
  | JObj kvs => match assoc key kvs with Some v => inr v | None => inl KeyError end
  | _ => inl TypeError
  end.

(** [str(n)] for a non-negative [int]: its decimal digits. *)
Definition str (n : nat) : string :=
  NilZero.string_of_uint (Nat.to_uint n).

(** binary64, the format of a Python [float]. *)
Definition prec : Z := 53.
Definition emax : Z := 1024.

(** [float(n)] for an [int]: rounded to nearest even, and
    [OverflowError] when the result is out of range. *)
Definition float_of_int (n : Z) : exn + spec_float :=
  match binary_normalize prec emax n 0 false with
  | S754_infinity _ => inl OverflowError
  | f => inr f
  end.

Section Float.

(** The grammar and rounding of [float(s)] for a [str] [s] belong to the
    interpreter; [None] stands for its [ValueError]. *)
Variable float_of_str : string -> option spec_float.

(** [float(v)]. *)
Definition float (v : json) : exn + spec_float :=
  match v with
  | JNull => inl TypeError
  | JBool b => float_of_int (if b then 1 else 0)
  | JInt n => float_of_int n
  | JFloat f => inr f
  | JStr s => match float_of_str s with
              | Some f => inr f
              | None => inl ValueError
              end
  | JArr _ | JObj _ => inl TypeError
  end.

End Float.

End Py.

(** ** Python dictionaries, in insertion order *)

Module Dict.

Section Ops.

Context {V : Type}.

Definition t : Type := list (string * V).

Definition empty : t := [].

(** [d.get(k)] / [d[k]]. *)
Fixpoint lookup (k : string) (d : t) : option V :=
  match d with
  | [] => None
  | (k', v) :: rest => if String.eqb k k' then Some v else lookup k rest
  end.

(** [k in d]. *)
Definition mem (k : string) (d : t) : bool :=
  match lookup k d with Some _ => true | None => false end.

(** [d[k] = v]: an existing key keeps its place, a new one goes last. *)
Fixpoint set (k : string) (v : V) (d : t) : t :=
  match d with
  | [] => [(k, v)]
  | (k', v') :: rest =>
      if String.eqb k k' then (k', v) :: rest else (k', v') :: set k v rest
  end.

(** The store left by [d.pop(k)]. *)
Fixpoint remove (k : string) (d : t) : t :=
  match d with
  | [] => []
  | (k', v') :: rest =>
      if String.eqb k k' then rest else (k', v') :: remove k rest
  end.

(** [list(d.values())]. *)
Definition values (d : t) : list V := map snd d.

Definition keys (d : t) : list string := map fst d.

(** [len(d)]. *)
Definition len (d : t) : nat := List.length d.

(** The keys of a dictionary are pairwise distinct. *)
Definition wf (d : t) : Prop := NoDup (keys d).

End Ops.

Arguments t V : clear implicits.

End Dict.

Import Py.

(** ** The stores *)

(** The [dict] built by [create_user]. [name] and [email] hold whatever
    JSON value the request carried. *)
Record user : Type := mkUser {
  user_id : string;
  user_name : json;
  user_email : json;
  user_created_at : string;
  user_updated_at : string
}.

(** The [dict] built by [create_item]. *)
Record item : Type := mkItem {
  item_id : string;
  item_name : json;
  item_price : spec_float;
  item_description : json;
  item_created_at : string
}.

(** The process state: the two global dictionaries, and how many times
    the clock has been read so far. *)
Record world : Type := mkWorld {
  users_db : Dict.t user;
  items_db : Dict.t item;
  clock_reads : nat
}.

(** [users_db = {}], [items_db = {}] at start-up. *)
Definition initial : world :=
  {| users_db := Dict.empty; items_db := Dict.empty; clock_reads := 0 |}.

(** What a view function returns: a JSON body and a status code. *)
Record response : Type := mkResponse {
  body : json;
  status : nat
}.

(** ** State and exceptions *)

Definition M (A : Type) : Type := world -> (exn + A) * world.

Definition ret {A} (a : A) : M A := fun w => (inr a, w).

Definition raise {A} (e : exn) : M A := fun w => (inl e, w).

Definition bind {A B} (m : M A) (k : A -> M B) : M B :=
  fun w =>
    match m w with
    | (inr a, w') => k a w'
    | (inl e, w') => (inl e, w')
    end.

(** The outcome of a built-in operation, inside a handler. *)
Definition lift {A} (r : exn + A) : M A :=
  match r with
  | inr a => ret a
  | inl e => raise e
  end.

Definition gets {A} (f : world -> A) : M A := fun w => (inr (f w), w).

Definition modify (f : world -> world) : M unit := fun w => (inr tt, f w).

Declare Scope handler_scope.
Delimit Scope handler_scope with handler.

Notation "x <- m ;; k" := (bind m (fun x => k))
  (at level 61, m at next level, right associativity) : handler_scope.
Notation "m ;; k" := (bind m (fun _ => k))
  (at level 61, right associativity) : handler_scope.

Local Open Scope handler_scope.

Definition set_users (d : Dict.t user) (w : world) : world :=
  {| users_db := d; items_db := items_db w; clock_reads := clock_reads w |}.

Definition set_items (d : Dict.t item) (w : world) : world :=
  {| users_db := users_db w; items_db := d; clock_reads := clock_reads w |}.

Definition tick (w : world) : world :=
  {| users_db := users_db w; items_db := items_db w;
     clock_reads := S (clock_reads w) |}.

(** [user[...] = ...] on the dictionary that [users_db[uid]] refers to:
    the entry of the store itself changes. *)
Definition update_entry (uid : string) (f : user -> user) : M unit :=
  modify (fun w =>
    match Dict.lookup uid (users_db w) with
    | Some u => set_users (Dict.set uid (f u) (users_db w)) w
    | None => w
    end).

(** ** Responses *)

(** [jsonify(user)]. *)
Definition user_json (u : user) : json :=
  JObj [("id", JStr (user_id u));
        ("name", user_name u);
        ("email", user_email u);
        ("created_at", JStr (user_created_at u));
        ("updated_at", JStr (user_updated_at u))].

(** [jsonify(item)]. *)
Definition item_json (i : item) : json :=
  JObj [("id", JStr (item_id i));
        ("name", item_name i);
        ("price", JFloat (item_price i));
        ("description", item_description i);
        ("created_at", JStr (item_created_at i))].

(** [jsonify({"error": msg}), code]. *)
Definition error_response (msg : string) (code : nat) : response :=
  {| body := JObj [("error", JStr msg)]; status := code |}.

Definition user_not_found : string := "用户不存在".
Definition item_not_found : string := "物品不存在".
Definition missing_field : string := "缺少必要字段: ".
Definition user_deleted : string := "用户已删除".
Definition item_deleted : string := "物品已删除".

(** The handler registered for status 500. *)
Definition internal_error (e : exn) : response :=
  {| body := JObj [("error", JStr "服务器内部错误");
                   ("message", JStr "请稍后重试")];
     status := 500 |}.

(** ** The handlers *)

Section Handlers.

(** [now_iso n] is what the [n]-th evaluation of
    [datetime.now().isoformat()] in the process returns. *)
Variable now_iso : nat -> string.

(** [s.lower()] on a [str]; the case tables are the interpreter's. *)
Variable str_lower : string -> string.

(** [float(s)] on a [str], [None] for [ValueError]. *)
Variable float_of_str : string -> option spec_float.

(** [datetime.now().isoformat()]. *)
Definition now : M string :=
  fun w => (inr (now_iso (clock_reads w)), tick w).

(** [GET /users]. *)
Definition get_users : M response :=
  users <- gets (fun w => Dict.values (users_db w)) ;;
  count <- gets (fun w => Dict.len (users_db w)) ;;
  ret {| body := JObj [("users", JArr (map user_json users));
                       ("count", JInt (Z.of_nat count))];
         status := 200 |}.

(** [GET /users/<user_id>]. A stored user has five keys, so [if user]
    tests that the lookup found one. *)
Definition get_user (uid : string) : M response :=
  user <- gets (fun w => Dict.lookup uid (users_db w)) ;;
  match user with
  | Some u => ret {| body := user_json u; status := 200 |}
  | None => ret (error_response user_not_found 404)
  end.

(** [POST /users], [data] being [request.get_json()]. *)
Definition create_user (data : json) : M response :=
  if negb (truthy data) then
    ret (error_response (missing_field ++ "name") 400)
  else
    checked <- lift (get data "name" JNull) ;;
    if negb (truthy checked) then
      ret (error_response (missing_field ++ "name") 400)
    else
      count <- gets (fun w => Dict.len (users_db w)) ;;
      let uid := str (count + 1) in
      name <- lift (getitem data "name") ;;
      email <- lift (get data "email" (JStr "")) ;;
      created <- now ;;
      updated <- now ;;
      let u := {| user_id := uid; user_name := name; user_email := email;
                  user_created_at := created; user_updated_at := updated |} in
      modify (fun w => set_users (Dict.set uid u (users_db w)) w) ;;
      ret {| body := user_json u; status := 201 |}.

(** [if key in data: user[key] = data[key]]. *)
Definition overwrite_if_present
    (uid : string) (data : json) (key : string)
    (assign : json -> user -> user) : M unit :=
  present <- lift (contains key data) ;;
  if (present : bool) then
    v <- lift (getitem data key) ;;
    update_entry uid (assign v)
  else ret tt.

Definition with_name (v : json) (u : user) : user :=
  {| user_id := user_id u; user_name := v; user_email := user_email u;
     user_created_at := user_created_at u;
     user_updated_at := user_updated_at u |}.

Definition with_email (v : json) (u : user) : user :=
  {| user_id := user_id u; user_name := user_name u; user_email := v;
     user_created_at := user_created_at u;
     user_updated_at := user_updated_at u |}.

Definition with_updated_at (t : string) (u : user) : user :=
  {| user_id := user_id u; user_name := user_name u;
     user_email := user_email u;
     user_created_at := user_created_at u;
     user_updated_at := t |}.

(** [users_db[uid]]. *)
Definition entry (uid : string) : M user :=
  found <- gets (fun w => Dict.lookup uid (users_db w)) ;;
  match found with
  | Some u => ret u
  | None => raise KeyError
  end.

(** [PUT /users/<user_id>]. [user] is the dictionary held by the store,
    so each assignment is made on the store's entry, and the final
    [users_db[user_id] = user] stores that same entry again. *)
Definition update_user (uid : string) (data : json) : M response :=
  known <- gets (fun w => Dict.mem uid (users_db w)) ;;
  if negb known then ret (error_response user_not_found 404)
  else
    entry uid ;;
    overwrite_if_present uid data "name" with_name ;;
    overwrite_if_present uid data "email" with_email ;;
    t <- now ;;
    update_entry uid (with_updated_at t) ;;
    update_entry uid (fun u => u) ;;
    u <- entry uid ;;
    ret {| body := user_json u; status := 200 |}.

(** [DELETE /users/<user_id>]. *)
Definition delete_user (uid : string) : M response :=
  found <- gets (fun w => Dict.lookup uid (users_db w)) ;;
  match found with
  | None => ret (error_response user_not_found 404)
  | Some deleted_user =>
      modify (fun w => set_users (Dict.remove uid (users_db w)) w) ;;
      ret {| body := JObj [("message", JStr user_deleted);
                           ("user", user_json deleted_user)];
             status := 200 |}
  end.

(** [item['name'].lower()]: only a [str] has the method. *)
Definition name_lower (i : item) : exn + string :=
  match item_name i with
  | JStr s => inr (str_lower s)
  | _ => inl AttributeError
  end.

(** [[item for item in items if query.lower() in item['name'].lower()]]. *)
Fixpoint matching (query : string) (items : list item) : exn + list item :=
  match items with
  | [] => inr []
  | i :: rest =>
      match name_lower i with
      | inl e => inl e
      | inr n =>
          match matching query rest with
          | inl e => inl e
          | inr kept =>
              inr (if str_contains (str_lower query) n then i :: kept else kept)
          end
      end
  end.

(** [GET /items], [q] being the query parameter when the URL has one. *)
Definition get_items (q : option string) : M response :=
  let query := match q with Some s => s | None => "" end in
  items <- gets (fun w => Dict.values (items_db w)) ;;
  items <- (if truthy (JStr query) then lift (matching query items)
            else ret items) ;;
  ret {| body := JObj [("items", JArr (map item_json items));
                       ("count", JInt (Z.of_nat (List.length items)));
                       ("query", JStr query)];
         status := 200 |}.

Definition required_fields : list string := ["name"; "price"].

(** The [for field in required_fields] loop: the first field that is
    not in [data], if there is one. *)
Fixpoint first_missing (fields : list string) (data : json)
  : exn + option string :=
  match fields with
  | [] => inr None
  | field :: rest =>
      match contains field data with
      | inl e => inl e
      | inr false => inr (Some field)
      | inr true => first_missing rest data
      end
  end.

(** [POST /items], [data] being [request.get_json()]. *)
Definition create_item (data : json) : M response :=
  missing <- lift (first_missing required_fields data) ;;
  match missing with
  | Some field => ret (error_response (missing_field ++ field) 400)
  | None =>
      count <- gets (fun w => Dict.len (items_db w)) ;;
      let iid := str (count + 1) in
      name <- lift (getitem data "name") ;;
      raw_price <- lift (getitem data "price") ;;
      price <- lift (float float_of_str raw_price) ;;
      description <- lift (get data "description" (JStr "")) ;;
      created <- now ;;
      let i := {| item_id := iid; item_name := name; item_price := price;
                  item_description := description;
                  item_created_at := created |} in
      modify (fun w => set_items (Dict.set iid i (items_db w)) w) ;;
      ret {| body := item_json i; status := 201 |}
  end.

(** [DELETE /items/<item_id>]. *)
Definition delete_item (iid : string) : M response :=
  found <- gets (fun w => Dict.lookup iid (items_db w)) ;;
  match found with
  | None => ret (error_response item_not_found 404)
  | Some deleted_item =>
      modify (fun w => set_items (Dict.remove iid (items_db w)) w) ;;
      ret {| body := JObj [("message", JStr item_deleted);
                           ("item", item_json deleted_item)];
             status := 200 |}
  end.

(** ** Routing *)

(** The routes with a handler over the stores, with the parsed inputs
    of each. *)
Inductive request : Type :=
| GetUsers
| GetUser (uid : string)
| PostUsers (data : json)
| PutUser (uid : string) (data : json)
| DeleteUser (uid : string)
| GetItems (q : option string)
| PostItems (data : json)
| DeleteItem (iid : string).

Definition is_get (r : request) : bool :=
  match r with
  | GetUsers | GetUser _ | GetItems _ => true
  | _ => false
  end.

Definition handle (r : request) : M response :=
  match r with
  | GetUsers => get_users
  | GetUser uid => get_user uid
  | PostUsers data => create_user data
  | PutUser uid data => update_user uid data
  | DeleteUser uid => delete_user uid
  | GetItems q => get_items q
  | PostItems data => create_item data
  | DeleteItem iid => delete_item iid
  end.

(** What the client receives: the handler's response, or the response
    of the 500 handler when an exception escaped. *)
Definition serve (r : request) (w : world) : response * world :=
  match handle r w with
  | (inr resp, w') => (resp, w')
  | (inl e, w') => (internal_error e, w')
  end.

(** Serving requests one after the other. *)
Fixpoint serve_all (rs : list request) (w : world) : list response * world :=
  match rs with
  | [] => ([], w)
  | r :: rest =>
      let (resp, w1) := serve r w in
      let (resps, w2) := serve_all rest w1 in
      (resp :: resps, w2)
  end.

End Handlers.

(** ** Sample environments

    Concrete clocks and built-ins on which the handlers can be run. *)

(** [k] zeros. *)
Fixpoint zeros (k : nat) : string :=
  match k with
  | O => EmptyString
  | S k' => String "0" (zeros k')
  end.

(** A clock that advances by a microsecond between any two readings. *)
Definition ticking_clock (n : nat) : string :=
  let us := str n in
  "2024-01-01T00:00:00." ++ zeros (6 - String.length us) ++ us.

(** A clock whose readings all fall in the same microsecond. *)
Definition frozen_clock (n : nat) : string :=
  "2024-01-01T00:00:00.000000".

(** [str.lower] on the ASCII letters; other bytes are kept. *)
Definition ascii_lower_char (c : ascii) : ascii :=
  let n := nat_of_ascii c in
  if (65 <=? n)%nat && (n <=? 90)%nat then ascii_of_nat (n + 32) else c.

Fixpoint ascii_lower (s : string) : string :=
  match s with
  | EmptyString => EmptyString
  | String c rest => String (ascii_lower_char c) (ascii_lower rest)
  end.

Definition digit_value (c : ascii) : option Z :=
  let n := nat_of_ascii c in
  if (48 <=? n)%nat && (n <=? 57)%nat then Some (Z.of_nat (n - 48)) else None.

(** The leading decimal digits of [s]: their value on top of [acc],
    how many there are on top of [n], and what follows them. *)
Fixpoint read_digits (s : string) (acc : Z) (n : nat) : Z * nat * string :=
  match s with
  | String c rest =>
      match digit_value c with
      | Some d => read_digits rest (10 * acc + d) (S n)
      | None => (acc, n, s)
      end
  | EmptyString => (acc, n, s)
  end.

(** The binary64 value nearest to [p / q] (ties to even), for [0 <= p]
    and [0 < q]: the quotient is taken with at least 64 significant
    bits and a sticky last bit before it is rounded. *)
Definition round_ratio (neg : bool) (p q : Z) : spec_float :=
  if (p =? 0)%Z then S754_zero neg
  else
    let s := Z.max 0 (64 + Z.log2 q - Z.log2 p) in
    let num := (p * 2 ^ s)%Z in
    let m := (2 * (num / q) + (if (num mod q =? 0)%Z then 0 else 1))%Z in
    binary_normalize prec emax (if neg then (- m)%Z else m) (- s - 1) neg.

(** [float(s)] on the decimal literals [[+-]digits[.digits]], one digit
    at least; every other string is rejected here. *)
Definition float_of_decimal (s : string) : option spec_float :=
  let (neg, s1) :=
    match s with
    | String "-" r => (true, r)
    | String "+" r => (false, r)
    | _ => (false, s)
    end in
  let '(ip, ni, s2) := read_digits s1 0 0 in
  let '(m, nf, s3) :=
    match s2 with
    | String "." r => read_digits r ip 0
    | _ => (ip, 0%nat, s2)
    end in
  match s3 with
  | EmptyString =>
      if (ni + nf =? 0)%nat then None
      else Some (round_ratio neg m (10 ^ Z.of_nat nf))
  | _ => None
  end.

(** ** Vocabulary of the statements *)

(** The body carries no usable [name]: it is [None] or otherwise falsy,
    or it is an object whose [name] is missing or falsy. *)
Definition lacks_name (data : json) : Prop :=
  truthy data = false
  \/ exists kvs, data = JObj kvs
       /\ match assoc "name" kvs with
          | Some v => truthy v = false
          | None => True
          end.

Section Vocabulary.

Variable str_lower : string -> string.

(** The test of the comprehension of [get_items] on an item whose name
    is a [str]. *)
Definition name_matches (query : string) (i : item) : bool :=
  match item_name i with
  | JStr s => str_contains (str_lower query) (str_lower s)
  | _ => false
  end.


End Vocabulary.

(** Every stored item has a [str] for name. *)
Definition names_are_str (w : world) : Prop :=
  forall i, In i (Dict.values (items_db w)) -> exists s, item_name i = JStr s.

(** Both stores have pairwise distinct keys. *)
Definition stores_wf (w : world) : Prop :=
  Dict.wf (users_db w) /\ Dict.wf (items_db w).

(** [m] keeps [P] true of the world, whether it returns or raises. *)
Definition preserves {A} (P : world -> Prop) (m : M A) : Prop :=
  forall w, P w -> P (snd (m w)).

(** ** Sample requests and worlds *)

Definition alice : json := JObj [("name", JStr "Alice")].

Definition widget : json :=
  JObj [("name", JStr "Widget"); ("price", JStr "9.99")].

Definition gadget : json :=
  JObj [("name", JStr "Gadget"); ("price", JInt 5)].

(** The world after [POST /users] with [alice] on a ticking clock. *)
Definition one_user : world :=
  snd (serve ticking_clock ascii_lower float_of_decimal (PostUsers alice)
         initial).

(** The world after [POST /items] with [widget], then with [gadget]. *)
Definition two_items : world :=
  snd (serve_all ticking_clock ascii_lower float_of_decimal
         [PostItems widget; PostItems gadget] initial).

(** The world after [POST /items] with a number for [name]. *)
Definition numbered_item : world :=
  snd (serve ticking_clock ascii_lower float_of_decimal
         (PostItems (JObj [("name", JInt 5); ("price", JInt 1)])) initial).

(** ** Vocabulary of the further properties *)

Definition is_delete_user (r : request) : bool :=
  match r with
  | DeleteUser _ => true
  | _ => false
  end.

Definition is_delete_item (r : request) : bool :=
  match r with
  | DeleteItem _ => true
  | _ => false
  end.

(** The requests that are routed to handlers of the user store. *)
Definition on_users (r : request) : bool :=
  match r with
  | GetUsers | GetUser _ | PostUsers _ | PutUser _ _ | DeleteUser _ => true
  | _ => false
  end.

(** The keys are ["1"], ["2"], ... up to the number of entries, in this
    order. *)
Definition sequential {V} (d : Dict.t V) : Prop :=
  Dict.keys d = map str (seq 1 (Dict.len d)).

(** Every user and every item is stored under its own [id]. *)
Definition keyed_by_id (w : world) : Prop :=
  (forall k u, In (k, u) (users_db w) -> user_id u = k)
  /\ (forall k i, In (k, i) (items_db w) -> item_id i = k).

(** The response is one of the error responses: its status is 400, 404
    or 500 and its body is an object with a string under [error]. *)
Definition is_error (resp : response) : Prop :=
  (status resp = 400 \/ status resp = 404 \/ status resp = 500)
  /\ exists kvs msg, body resp = JObj kvs /\ assoc "error" kvs = Some (JStr msg).

(** The response is a success: its status is 200 or 201. *)
Definition is_success (resp : response) : Prop :=
  status resp = 200 \/ status resp = 201.

(** The requests that create. *)
Definition is_post (r : request) : bool :=
  match r with
  | PostUsers _ | PostItems _ => true
  | _ => false
  end.

(** The requests whose path names an id. *)
Definition has_id (r : request) : bool :=
  match r with
  | GetUser _ | PutUser _ _ | DeleteUser _ | DeleteItem _ => true
  | _ => false
  end.

(** The world after a user has been replaced by [u'] in an
    [update_user] that has read the clock. *)
Definition restamped (uid : string) (u' : user) (w : world) : world :=
  {| users_db := Dict.set uid u' (users_db w);
     items_db := items_db w;
     clock_reads := S (clock_reads w) |}.

(** The world after [POST /users] with [alice], twice. *)
Definition two_users : world :=
  snd (serve_all ticking_clock ascii_lower float_of_decimal
         [PostUsers alice; PostUsers alice] initial).

(** * Properties *)

(** ** Dictionaries *)

Module DictFacts.

Section Facts.

Context {V : Type}.
Implicit Types (d : Dict.t V) (k : string) (v : V).

Lemma lookup_set_same k v d : Dict.lookup k (Dict.set k v d) = Some v.
Proof.
  induction d as [|[k' v'] rest IH]; simpl.
  - now rewrite String.eqb_refl.
  - destruct (String.eqb k k') eqn:E; simpl; rewrite E; auto.
Qed.

Lemma lookup_set_other k k' v d :
  k <> k' -> Dict.lookup k' (Dict.set k v d) = Dict.lookup k' d.
Proof.
  intros Hne. induction d as [|[k0 v0] rest IH]; simpl.
  - destruct (String.eqb k' k) eqn:E; auto.
    apply String.eqb_eq in E. congruence.
  - destruct (String.eqb k k0) eqn:E; simpl.
    + apply String.eqb_eq in E. subst k0.
      destruct (String.eqb k' k) eqn:E'; auto.
      apply String.eqb_eq in E'. congruence.
    + now rewrite IH.
Qed.

Lemma set_set k v1 v2 d : Dict.set k v2 (Dict.set k v1 d) = Dict.set k v2 d.
Proof.
  induction d as [|[k' v'] rest IH]; simpl.
  - now rewrite String.eqb_refl.
  - destruct (String.eqb k k') eqn:E; simpl; rewrite E; congruence.
Qed.

Lemma set_same k v d : Dict.lookup k d = Some v -> Dict.set k v d = d.
Proof.
  induction d as [|[k' v'] rest IH]; simpl; [discriminate|].
  destruct (String.eqb k k'); intros H.
  - congruence.
  - now rewrite IH.
Qed.

Lemma lookup_None k d : Dict.lookup k d = None <-> ~ In k (Dict.keys d).
Proof.
  induction d as [|[k' v'] rest IH]; simpl.
  - tauto.
  - destruct (String.eqb k k') eqn:E.
    + apply String.eqb_eq in E. subst. split; [discriminate | tauto].
    + apply String.eqb_neq in E. rewrite IH. split.
      * intros H [H'|H']; [congruence | tauto].
      * tauto.
Qed.

Lemma keys_set_known k v d :
  Dict.mem k d = true -> Dict.keys (Dict.set k v d) = Dict.keys d.
Proof.
  unfold Dict.mem. induction d as [|[k' v'] rest IH]; simpl; [discriminate|].
  destruct (String.eqb k k'); simpl; intros H; [reflexivity|].
  now rewrite IH.
Qed.

Lemma keys_set_new k v d :
  Dict.lookup k d = None -> Dict.keys (Dict.set k v d) = Dict.keys d ++ [k].
Proof.
  induction d as [|[k' v'] rest IH]; simpl; [reflexivity|].
  destruct (String.eqb k k'); simpl; intros H; [discriminate|].
  now rewrite IH.
Qed.

Lemma len_set_known k v d :
  Dict.mem k d = true -> Dict.len (Dict.set k v d) = Dict.len d.
Proof.
  intros H. unfold Dict.len.
  rewrite <- (length_map fst (Dict.set k v d)), <- (length_map fst d).
  change (map fst (Dict.set k v d)) with (Dict.keys (Dict.set k v d)).
  now rewrite (keys_set_known k v d H).
Qed.

Lemma len_set_new k v d :
  Dict.lookup k d = None -> Dict.len (Dict.set k v d) = S (Dict.len d).
Proof.
  unfold Dict.len.
  induction d as [|[k' v'] rest IH]; simpl; [reflexivity|].
  destruct (String.eqb k k'); simpl; intros H; [discriminate|].
  now rewrite IH.
Qed.

Lemma wf_empty : Dict.wf (@Dict.empty V).
Proof. constructor. Qed.

Lemma wf_set k v d : Dict.wf d -> Dict.wf (Dict.set k v d).
Proof.
  unfold Dict.wf. intros Hwf.
  destruct (Dict.lookup k d) eqn:E.
  - rewrite keys_set_known; [assumption|]. unfold Dict.mem. now rewrite E.
  - rewrite keys_set_new by assumption.
    apply NoDup_app; [assumption | repeat constructor; simpl; tauto |].
    intros x Hx [Hk|[]]. subst x. now apply lookup_None in E.
Qed.

Lemma keys_remove_incl k d x :
  In x (Dict.keys (Dict.remove k d)) -> In x (Dict.keys d).
Proof.
  induction d as [|[k' v'] rest IH]; simpl; [tauto|].
  destruct (String.eqb k k'); simpl; tauto.
Qed.

Lemma wf_remove k d : Dict.wf d -> Dict.wf (Dict.remove k d).
Proof.
  unfold Dict.wf.
  induction d as [|[k' v'] rest IH]; simpl; intros Hwf; [assumption|].
  inversion Hwf as [|? ? Hnotin Hrest]; subst.
  destruct (String.eqb k k'); simpl; [assumption|].
  constructor; [|auto].
  intros Hin. apply Hnotin. eapply keys_remove_incl; eassumption.
Qed.

Lemma lookup_remove_same k d :
  Dict.wf d -> Dict.lookup k (Dict.remove k d) = None.
Proof.
  unfold Dict.wf.
  induction d as [|[k' v'] rest IH]; simpl; intros Hwf; [reflexivity|].
  inversion Hwf as [|? ? Hnotin Hrest]; subst.
  destruct (String.eqb k k') eqn:E; simpl.
  - apply String.eqb_eq in E. subst k'. now apply lookup_None.
  - rewrite E. auto.
Qed.

Lemma lookup_remove_other k k' d :
  k <> k' -> Dict.lookup k' (Dict.remove k d) = Dict.lookup k' d.
Proof.
  intros Hne. induction d as [|[k0 v0] rest IH]; simpl; [reflexivity|].
  destruct (String.eqb k k0) eqn:E; simpl.
  - apply String.eqb_eq in E. subst k0.
    destruct (String.eqb k' k) eqn:E'; [|reflexivity].
    apply String.eqb_eq in E'. congruence.
  - now rewrite IH.
Qed.

Lemma len_remove k v d :
  Dict.lookup k d = Some v -> S (Dict.len (Dict.remove k d)) = Dict.len d.
Proof.
  unfold Dict.len.
  induction d as [|[k' v'] rest IH]; simpl; [discriminate|].
  destruct (String.eqb k k'); simpl; intros H; [reflexivity|].
  now rewrite IH.
Qed.

End Facts.

End DictFacts.

(** ** Substrings *)

Lemma prefix_app (n h : string) :
  String.prefix n h = true <-> exists suf, h = (n ++ suf)%string.
Proof.
  revert h. induction n as [|c n IH]; intros h; simpl.
  - split; [intros _; now exists h | intros _; now destruct h].
  - destruct h as [|c' h]; simpl.
    + split; [discriminate | intros [suf H]; discriminate].
    + destruct (Ascii.ascii_dec c c') as [->|Hne].
      * rewrite IH. split; intros [suf H]; exists suf; congruence.
      * split; [discriminate | intros [suf H]; congruence].
Qed.

Lemma str_contains_nil (n : string) :
  str_contains n "" = String.prefix n "".
Proof. simpl. apply orb_false_r. Qed.

Lemma str_contains_cons (n : string) (c : ascii) (h : string) :
  str_contains n (String c h)
  = String.prefix n (String c h) || str_contains n h.
Proof. reflexivity. Qed.

(** [needle in hay] holds exactly when [hay] splits around [needle]. *)
Lemma str_contains_split (n h : string) :
  str_contains n h = true <-> exists pre suf, h = (pre ++ n ++ suf)%string.
Proof.
  induction h as [|c h IH].
  - rewrite str_contains_nil, prefix_app. split.
    + intros [suf H]. now exists "", suf.
    + intros [pre [suf H]]. destruct pre; simpl in H; [now exists suf|discriminate].
  - rewrite str_contains_cons, orb_true_iff, prefix_app, IH. split.
    + intros [[suf H]|[pre [suf H]]].
      * now exists "", suf.
      * exists (String c pre), suf. simpl. congruence.
    + intros [pre [suf H]]. destruct pre as [|c' pre]; simpl in H.
      * left. now exists suf.
      * right. exists pre, suf. congruence.
Qed.

(** ** The handlers *)

(** Unfolds the plumbing of the monad in the goal. *)
Ltac run :=
  unfold bind, lift, ret, raise, gets, modify, now; cbn [fst snd].

Lemma update_entry_stored (uid : string) (f : user -> user) (w : world) (u : user) :
  Dict.lookup uid (users_db w) = Some u ->
  update_entry uid f w
    = (inr tt, set_users (Dict.set uid (f u) (users_db w)) w).
Proof. intros H. unfold update_entry, modify. now rewrite H. Qed.

Lemma entry_stored (uid : string) (w : world) (u : user) :
  Dict.lookup uid (users_db w) = Some u -> entry uid w = (inr u, w).
Proof. intros H. unfold entry. run. now rewrite H. Qed.

Lemma overwrite_if_present_object
    (uid : string) (kvs : list (string * json)) (key : string)
    (assign : json -> user -> user) (w : world) (u : user) :
  Dict.lookup uid (users_db w) = Some u ->
  overwrite_if_present uid (JObj kvs) key assign w
    = (inr tt,
       match assoc key kvs with
       | Some v => set_users (Dict.set uid (assign v u) (users_db w)) w
       | None => w
       end).
Proof.
  intros H. unfold overwrite_if_present. run. cbn [contains getitem].
  destruct (assoc key kvs) as [v|]; [|reflexivity].
  now apply update_entry_stored.
Qed.

(** A step of a handler whose outcome is known. *)
Lemma bind_step {A B} (m : M A) (k : A -> M B) (w w' : world) (a : A) :
  m w = (inr a, w') -> bind m k w = k a w'.
Proof. intros H. unfold bind. now rewrite H. Qed.

Section Properties.

Variable now_iso : nat -> string.
Variable str_lower : string -> string.
Variable float_of_str : string -> option spec_float.

Lemma create_user_bad_request (data : json) (w : world) :
  lacks_name data ->
  create_user now_iso data w
    = (inr (error_response (missing_field ++ "name") 400), w).
Proof.
  intros Hlacks. unfold create_user.
  destruct (truthy data) eqn:Hdata; [|reflexivity].
  destruct Hlacks as [Hfalsy | [kvs [-> Hname]]]; [congruence|].
  cbn [negb]. run. cbn [get].
  destruct (assoc "name" kvs) as [v|]; [rewrite Hname|]; reflexivity.
Qed.

Lemma first_missing_object (kvs : list (string * json)) :
  first_missing required_fields (JObj kvs)
  = inr match assoc "name" kvs, assoc "price" kvs with
        | None, _ => Some "name"
        | Some _, None => Some "price"
        | Some _, Some _ => None
        end.
Proof.
  cbn [first_missing required_fields contains].
  now destruct (assoc "name" kvs), (assoc "price" kvs).
Qed.

(** What [create_item] does with a request object, case by case. *)
Lemma create_item_object (kvs : list (string * json)) (w : world) :
  create_item now_iso float_of_str (JObj kvs) w
  = match assoc "name" kvs, assoc "price" kvs with
    | None, _ => (inr (error_response (missing_field ++ "name") 400), w)
    | Some _, None => (inr (error_response (missing_field ++ "price") 400), w)
    | Some name, Some raw =>
        match float float_of_str raw with
        | inl e => (inl e, w)
        | inr price =>
            let iid := str (Dict.len (items_db w) + 1) in
            let i := {| item_id := iid;
                        item_name := name;
                        item_price := price;
                        item_description :=
                          match assoc "description" kvs with
                          | Some d => d
                          | None => JStr ""
                          end;
                        item_created_at := now_iso (clock_reads w) |} in
            (inr {| body := item_json i; status := 201 |},
             {| users_db := users_db w;
                items_db := Dict.set iid i (items_db w);
                clock_reads := S (clock_reads w) |})
        end
    end.
Proof.
  unfold create_item. rewrite first_missing_object. run. cbn [getitem get].
  destruct (assoc "name" kvs) as [name|]; [|reflexivity].
  destruct (assoc "price" kvs) as [raw|]; [|reflexivity].
  now destruct (float float_of_str raw).
Qed.

(** C5, as the code has it. When the request body is falsy (a missing
    body and an empty object included) or is an object in which [name]
    is absent or falsy (the empty string included), [create_user]
    answers 400 with an [error] message that names the field [name], and
    the world is the one it started from. *)
Theorem create_user_rejects_missing_name (data : json) (w : world) :
  lacks_name data ->
  exists msg,
    create_user now_iso data w
      = (inr {| body := JObj [("error", JStr msg)]; status := 400 |}, w)
    /\ str_contains "name" msg = true.
Proof.
  intros Hlacks. exists (missing_field ++ "name")%string.
  split; [now apply create_user_bad_request | reflexivity].
Qed.

(** A truthy body that is not an object (a non-empty array or string, a
    non-zero number, [true]) has no [get]: the exception leaves
    [create_user] before anything is stored. *)
Remark create_user_non_object (data : json) (w : world) :
  truthy data = true ->
  (forall kvs, data <> JObj kvs) ->
  create_user now_iso data w = (inl AttributeError, w).
Proof.
  intros Htruthy Hnot. unfold create_user. rewrite Htruthy. cbn [negb]. run.
  destruct data; try reflexivity. now destruct (Hnot kvs).
Qed.

(** C1, as the code has it. For a request object with a truthy [name],
    [create_user] answers 201 with a user whose [id] is the decimal
    string of the number of stored users plus one, whose [name] is the
    one of the body, whose [email] is the one of the body or the empty
    string, and whose [created_at] and [updated_at] are two successive
    readings of the clock, [created_at] first; the two are equal when
    the two readings are. The user is stored under its [id]. *)
Theorem create_user_creates
    (kvs : list (string * json)) (name : json) (w : world) :
  assoc "name" kvs = Some name ->
  truthy name = true ->
  let uid := str (Dict.len (users_db w) + 1) in
  let u := {| user_id := uid;
              user_name := name;
              user_email := match assoc "email" kvs with
                            | Some e => e
                            | None => JStr ""
                            end;
              user_created_at := now_iso (clock_reads w);
              user_updated_at := now_iso (S (clock_reads w)) |} in
  create_user now_iso (JObj kvs) w
    = (inr {| body := user_json u; status := 201 |},
       {| users_db := Dict.set uid u (users_db w);
          items_db := items_db w;
          clock_reads := S (S (clock_reads w)) |})
  /\ (now_iso (clock_reads w) = now_iso (S (clock_reads w)) ->
      user_created_at u = user_updated_at u).
Proof.
  intros Hname Htruthy uid u. split; [|intros H; exact H].
  unfold create_user.
  assert (Hdata : truthy (JObj kvs) = true).
  { destruct kvs; [discriminate Hname | reflexivity]. }
  rewrite Hdata. cbn [negb]. run. cbn [get getitem].
  rewrite Hname, Htruthy. reflexivity.
Qed.

(** C10. With [request.get_json()] returning [None], [create_user]
    answers a handled 400, while [create_item], and [update_user] on a
    stored id, raise [TypeError] out of the handler and the client gets
    the 500 response. *)
Theorem none_body_disagreement (uid : string) (u : user) (w : world) :
  Dict.lookup uid (users_db w) = Some u ->
  (exists msg,
     serve now_iso str_lower float_of_str (PostUsers JNull) w
       = (error_response msg 400, w))
  /\ create_item now_iso float_of_str JNull w = (inl TypeError, w)
  /\ update_user now_iso uid JNull w = (inl TypeError, w)
  /\ serve now_iso str_lower float_of_str (PostItems JNull) w
       = (internal_error TypeError, w)
  /\ serve now_iso str_lower float_of_str (PutUser uid JNull) w
       = (internal_error TypeError, w)
  /\ status (internal_error TypeError) = 500.
Proof.
  intros Hstored.
  assert (Hupdate : update_user now_iso uid JNull w = (inl TypeError, w)).
  { unfold update_user, entry, overwrite_if_present, Dict.mem. run.
    rewrite Hstored. cbn. now rewrite Hstored. }
  repeat split.
  - eexists. reflexivity.
  - assumption.
  - unfold serve, handle. now rewrite Hupdate.
Qed.

(** C2. [update_user] answers 404 and changes nothing when the id is
    not stored. Otherwise, with a request object, [name] and [email] are
    each overwritten exactly when the object has the key, [id] and
    [created_at] are kept, [updated_at] becomes the reading of the clock,
    and the updated user is returned with status 200 and stored under
    its id. *)
Theorem update_user_partial_update
    (uid : string) (kvs : list (string * json)) (w : world) :
  match Dict.lookup uid (users_db w) with
  | None =>
      update_user now_iso uid (JObj kvs) w
        = (inr (error_response user_not_found 404), w)
  | Some u =>
      let u' := {| user_id := user_id u;
                   user_name := match assoc "name" kvs with
                                | Some v => v
                                | None => user_name u
                                end;
                   user_email := match assoc "email" kvs with
                                 | Some v => v
                                 | None => user_email u
                                 end;
                   user_created_at := user_created_at u;
                   user_updated_at := now_iso (clock_reads w) |} in
      update_user now_iso uid (JObj kvs) w
        = (inr {| body := user_json u'; status := 200 |},
           {| users_db := Dict.set uid u' (users_db w);
              items_db := items_db w;
              clock_reads := S (clock_reads w) |})
  end.
Proof.
  destruct (Dict.lookup uid (users_db w)) as [u|] eqn:Hstored.
  - intros u'. unfold update_user.
    rewrite (bind_step _ _ w w true) by (unfold gets, Dict.mem; now rewrite Hstored).
    cbn [negb].
    rewrite (bind_step _ _ _ _ _ (entry_stored uid w u Hstored)).
    rewrite (bind_step _ _ _ _ _
               (overwrite_if_present_object uid kvs "name" with_name w u Hstored)).
    set (w1 := match assoc "name" kvs with
               | Some v => set_users (Dict.set uid (with_name v u) (users_db w)) w
               | None => w
               end).
    set (u1 := match assoc "name" kvs with
               | Some v => with_name v u
               | None => u
               end).
    assert (H1 : Dict.lookup uid (users_db w1) = Some u1).
    { subst w1 u1. destruct (assoc "name" kvs); [|assumption].
      apply DictFacts.lookup_set_same. }
    rewrite (bind_step _ _ _ _ _
               (overwrite_if_present_object uid kvs "email" with_email w1 u1 H1)).
    set (w2 := match assoc "email" kvs with
               | Some v => set_users (Dict.set uid (with_email v u1) (users_db w1)) w1
               | None => w1
               end).
    set (u2 := match assoc "email" kvs with
               | Some v => with_email v u1
               | None => u1
               end).
    assert (H2 : Dict.lookup uid (users_db w2) = Some u2).
    { subst w2 u2. destruct (assoc "email" kvs); [|assumption].
      apply DictFacts.lookup_set_same. }
    rewrite (bind_step _ _ w2 (tick w2) (now_iso (clock_reads w2))) by reflexivity.
    assert (H2' : Dict.lookup uid (users_db (tick w2)) = Some u2) by exact H2.
    rewrite (bind_step _ _ _ _ _
               (update_entry_stored uid (with_updated_at (now_iso (clock_reads w2)))
                  (tick w2) u2 H2')).
    set (u3 := with_updated_at (now_iso (clock_reads w2)) u2).
    set (w3 := set_users (Dict.set uid u3 (users_db (tick w2))) (tick w2)).
    assert (H3 : Dict.lookup uid (users_db w3) = Some u3)
      by apply DictFacts.lookup_set_same.
    rewrite (bind_step _ _ _ _ _ (update_entry_stored uid (fun x => x) w3 u3 H3)).
    set (w4 := set_users (Dict.set uid u3 (users_db w3)) w3).
    assert (H4 : Dict.lookup uid (users_db w4) = Some u3)
      by apply DictFacts.lookup_set_same.
    rewrite (bind_step _ _ _ _ _ (entry_stored uid w4 u3 H4)).
    unfold ret.
    assert (Hclock : clock_reads w2 = clock_reads w).
    { subst w2 w1. destruct (assoc "email" kvs), (assoc "name" kvs); reflexivity. }
    assert (Hitems : items_db w2 = items_db w).
    { subst w2 w1. destruct (assoc "email" kvs), (assoc "name" kvs); reflexivity. }
    assert (Hu : u3 = u').
    { subst u3 u2 u1 u'. rewrite Hclock.
      destruct (assoc "email" kvs), (assoc "name" kvs); reflexivity. }
    assert (Husers : Dict.set uid u3 (users_db w2) = Dict.set uid u3 (users_db w)).
    { subst w2 w1.
      destruct (assoc "email" kvs), (assoc "name" kvs); cbn [users_db set_users];
        now rewrite ?DictFacts.set_set. }
    subst w4 w3. unfold set_users, tick. cbn [users_db items_db clock_reads].
    rewrite DictFacts.set_set, Husers, Hclock, Hitems, Hu. reflexivity.
  - unfold update_user.
    rewrite (bind_step _ _ w w false) by (unfold gets, Dict.mem; now rewrite Hstored).
    reflexivity.
Qed.

(** C7. [delete_user] answers 404 and changes nothing when the id is
    not stored. Otherwise it removes the entry, leaving the others, and
    answers 200 with a message and the removed user; the id being gone,
    deleting it again answers 404. *)
Theorem delete_user_removes (uid : string) (w : world) :
  Dict.wf (users_db w) ->
  match Dict.lookup uid (users_db w) with
  | None =>
      delete_user uid w = (inr (error_response user_not_found 404), w)
  | Some u =>
      let w' := {| users_db := Dict.remove uid (users_db w);
                   items_db := items_db w;
                   clock_reads := clock_reads w |} in
      delete_user uid w
        = (inr {| body := JObj [("message", JStr user_deleted);
                                ("user", user_json u)];
                  status := 200 |}, w')
      /\ Dict.lookup uid (users_db w') = None
      /\ (forall k, k <> uid ->
            Dict.lookup k (users_db w') = Dict.lookup k (users_db w))
      /\ delete_user uid w'
           = (inr (error_response user_not_found 404), w')
  end.
Proof.
  intros Hwf.
  destruct (Dict.lookup uid (users_db w)) as [u|] eqn:Hstored.
  - intros w'.
    assert (Hgone : Dict.lookup uid (users_db w') = None)
      by now apply DictFacts.lookup_remove_same.
    repeat split.
    + unfold delete_user. run. now rewrite Hstored.
    + assumption.
    + intros k Hk. apply DictFacts.lookup_remove_other. congruence.
    + unfold delete_user. run. now rewrite Hgone.
  - unfold delete_user. run. now rewrite Hstored.
Qed.

(** A GET handler returns the world it was given. *)
Lemma get_request_pure (r : request) (w : world) :
  is_get r = true ->
  snd (serve now_iso str_lower float_of_str r w) = w.
Proof.
  destruct r as [|uid| | | |q| |]; try discriminate; intros _;
    unfold serve, handle.
  - reflexivity.
  - unfold get_user. run.
    now destruct (Dict.lookup uid (users_db w)).
  - unfold get_items. run.
    destruct (truthy _); [|reflexivity].
    now destruct (matching str_lower _ _).
Qed.

Lemma serve_all_cons (r : request) (rs : list request) (w : world) :
  snd (serve_all now_iso str_lower float_of_str (r :: rs) w)
  = snd (serve_all now_iso str_lower float_of_str rs
           (snd (serve now_iso str_lower float_of_str r w))).
Proof.
  simpl. destruct (serve _ _ _ r w) as [resp w1]. simpl.
  now destruct (serve_all _ _ _ rs w1).
Qed.

(** C9. Any sequence of GET requests (user list, single user, item list
    with any query) leaves the user store and the item store, and so
    their counts, as they were. *)
Theorem get_requests_leave_stores (rs : list request) (w : world) :
  forallb is_get rs = true ->
  let w' := snd (serve_all now_iso str_lower float_of_str rs w) in
  users_db w' = users_db w
  /\ items_db w' = items_db w
  /\ Dict.len (users_db w') = Dict.len (users_db w)
  /\ Dict.len (items_db w') = Dict.len (items_db w).
Proof.
  intros Hget. cbv zeta.
  assert (Hsame : snd (serve_all now_iso str_lower float_of_str rs w) = w).
  { revert w. induction rs as [|r rs IH]; intros w; [reflexivity|].
    simpl in Hget. apply andb_prop in Hget as [Hr Hrs].
    rewrite serve_all_cons, get_request_pure by assumption. auto. }
  now rewrite Hsame.
Qed.

(** C3. From the empty stores, creating two users, deleting user 1 and
    creating a user again gives the new user the id of a user that is
    still stored, and takes its place; the same holds of items. *)
Theorem id_reused_after_delete :
  exists (before : list request) (new_user new_item : json),
    let w := snd (serve_all now_iso str_lower float_of_str before initial) in
    (exists k resp w',
        serve now_iso str_lower float_of_str (PostUsers new_user) w
          = (resp, w')
        /\ status resp = 201
        /\ get (body resp) "id" JNull = inr (JStr k)
        /\ k = str (Dict.len (users_db w) + 1)
        /\ Dict.mem k (users_db w) = true
        /\ Dict.len (users_db w') = Dict.len (users_db w))
    /\ (exists k resp w',
        serve now_iso str_lower float_of_str (PostItems new_item) w
          = (resp, w')
        /\ status resp = 201
        /\ get (body resp) "id" JNull = inr (JStr k)
        /\ k = str (Dict.len (items_db w) + 1)
        /\ Dict.mem k (items_db w) = true
        /\ Dict.len (items_db w') = Dict.len (items_db w)).
Proof.
  exists [PostUsers (JObj [("name", JStr "Ann")]);
          PostUsers (JObj [("name", JStr "Bob")]);
          DeleteUser "1";
          PostItems (JObj [("name", JStr "Widget"); ("price", JInt 3)]);
          PostItems (JObj [("name", JStr "Gadget"); ("price", JInt 4)]);
          DeleteItem "1"],
    (JObj [("name", JStr "Cid")]),
    (JObj [("name", JStr "Gizmo"); ("price", JInt 5)]).
  split; exists "2"; eexists; eexists; repeat split.
Qed.

(** C4. With a request object, [create_item] answers 400 exactly when
    the key [name] or the key [price] is missing, whatever the values
    are, and the message names the first missing one of [name], [price].
    A [name] that is there but falsy is enough for [create_item] and not
    for [create_user], which answers 400. *)
Theorem create_item_checks_presence (kvs : list (string * json)) (w : world) :
  let post r := fst (serve now_iso str_lower float_of_str r w) in
  (status (post (PostItems (JObj kvs))) = 400
   <-> assoc "name" kvs = None \/ assoc "price" kvs = None)
  /\ (assoc "name" kvs = None ->
      create_item now_iso float_of_str (JObj kvs) w
        = (inr (error_response (missing_field ++ "name") 400), w))
  /\ (assoc "name" kvs <> None -> assoc "price" kvs = None ->
      create_item now_iso float_of_str (JObj kvs) w
        = (inr (error_response (missing_field ++ "price") 400), w))
  /\ (forall v raw,
        assoc "name" kvs = Some v -> truthy v = false ->
        assoc "price" kvs = Some raw ->
        status (post (PostItems (JObj kvs))) <> 400
        /\ status (post (PostUsers (JObj kvs))) = 400).
Proof.
  cbv zeta.
  assert (Hiff : status (fst (serve now_iso str_lower float_of_str
                                (PostItems (JObj kvs)) w)) = 400
                 <-> assoc "name" kvs = None \/ assoc "price" kvs = None).
  { unfold serve, handle. rewrite create_item_object.
    destruct (assoc "name" kvs) as [name|]; [|cbn; tauto].
    destruct (assoc "price" kvs) as [raw|]; [|cbn; tauto].
    destruct (float float_of_str raw); cbn;
      (split; [discriminate | intros [H|H]; discriminate]). }
  split; [exact Hiff|]. split; [|split].
  - intros Hname. rewrite create_item_object. now rewrite Hname.
  - intros Hname Hprice. rewrite create_item_object, Hprice.
    now destruct (assoc "name" kvs).
  - intros v raw Hname Hfalsy Hprice. split.
    + rewrite Hiff. intros [H|H]; congruence.
    + unfold serve, handle. rewrite create_user_bad_request; [reflexivity|].
      right. exists kvs. split; [reflexivity|]. now rewrite Hname.
Qed.

(** C8. With a request object that has the keys [name] and [price],
    [create_item] answers 201 with an item whose [price] is the number
    that the price of the body is coerced to, whose [description] is the
    one of the body or the empty string and whose [created_at] is the
    reading of the clock, and stores it. A string is coerced to the
    number that [float] reads in it, a float to itself, an integer to
    the nearest binary64 number, [true] to 1.0 and [false] to 0.0. When
    the price cannot be coerced (a string that [float] rejects, an
    integer out of the range of binary64, [None], an array or an
    object) the exception leaves the handler with the stores untouched
    and the client gets the 500 response, not a 400. *)
Theorem create_item_coerces_price
    (kvs : list (string * json)) (name raw : json) (w : world) :
  assoc "name" kvs = Some name ->
  assoc "price" kvs = Some raw ->
  let created price :=
    let iid := str (Dict.len (items_db w) + 1) in
    let i := {| item_id := iid;
                item_name := name;
                item_price := price;
                item_description := match assoc "description" kvs with
                                    | Some d => d
                                    | None => JStr ""
                                    end;
                item_created_at := now_iso (clock_reads w) |} in
    create_item now_iso float_of_str (JObj kvs) w
    = (inr {| body := item_json i; status := 201 |},
       {| users_db := users_db w;
          items_db := Dict.set iid i (items_db w);
          clock_reads := S (clock_reads w) |}) in
  let failed e :=
    create_item now_iso float_of_str (JObj kvs) w = (inl e, w)
    /\ serve now_iso str_lower float_of_str (PostItems (JObj kvs)) w
       = (internal_error e, w)
    /\ status (internal_error e) = 500 in
  match raw with
  | JStr s =>
      match float_of_str s with
      | Some price => created price
      | None => failed ValueError
      end
  | JFloat price => created price
  | JInt n =>
      match binary_normalize 53 1024 n 0 false with
      | S754_infinity _ => failed OverflowError
      | S754_zero sign => created (S754_zero sign)
      | S754_nan => created S754_nan
      | S754_finite sign m e => created (S754_finite sign m e)
      end
  | JBool true => created (S754_finite false 4503599627370496 (-52))
  | JBool false => created (S754_zero false)
  | JNull | JArr _ | JObj _ => failed TypeError
  end.
Proof.
  intros Hname Hprice. cbv zeta.
  pose proof (create_item_object kvs w) as Hrun.
  rewrite Hname, Hprice in Hrun.
  assert (Hfailed : forall e,
            float float_of_str raw = inl e ->
            create_item now_iso float_of_str (JObj kvs) w = (inl e, w)
            /\ serve now_iso str_lower float_of_str (PostItems (JObj kvs)) w
               = (internal_error e, w)
            /\ status (internal_error e) = 500).
  { intros e He. rewrite He in Hrun. repeat split; [assumption|].
    unfold serve, handle. now rewrite Hrun. }
  destruct raw as [|[|]|n|f|s|l|obj]; cbn [float] in Hrun, Hfailed.
  - now apply Hfailed.
  - exact Hrun.
  - exact Hrun.
  - unfold float_of_int, prec, emax in Hrun, Hfailed.
    destruct (binary_normalize 53 1024 n 0 false);
      [exact Hrun | now apply Hfailed | exact Hrun | exact Hrun].
  - exact Hrun.
  - destruct (float_of_str s); [exact Hrun | now apply Hfailed].
  - now apply Hfailed.
  - now apply Hfailed.
Qed.

Lemma matching_names_str (query : string) (items : list item) :
  (forall i, In i items -> exists s, item_name i = JStr s) ->
  matching str_lower query items
  = inr (filter (name_matches str_lower query) items).
Proof.
  induction items as [|i rest IH]; intros Hstr; [reflexivity|].
  cbn [matching filter]. unfold name_lower, name_matches.
  destruct (Hstr i (or_introl eq_refl)) as [s Hs]. rewrite Hs.
  rewrite IH by (intros j Hj; apply Hstr; now right).
  reflexivity.
Qed.

Lemma matching_name_not_str (query : string) (items : list item) (i : item) :
  In i items ->
  (forall s, item_name i <> JStr s) ->
  matching str_lower query items = inl AttributeError.
Proof.
  intros Hin Hnot. induction items as [|j rest IH]; [contradiction|].
  cbn [matching]. unfold name_lower.
  destruct Hin as [->|Hin].
  - destruct (item_name i); try reflexivity. now destruct (Hnot s).
  - rewrite (IH Hin). now destruct (item_name j).
Qed.



(** ** The stores stay well formed *)

Lemma preserves_ret {A} (P : world -> Prop) (a : A) : preserves P (ret a).
Proof. intros w H. exact H. Qed.

Lemma preserves_raise {A} (P : world -> Prop) (e : exn) :
  preserves P (@raise A e).
Proof. intros w H. exact H. Qed.

Lemma preserves_lift {A} (P : world -> Prop) (r : exn + A) :
  preserves P (lift r).
Proof. destruct r; [apply preserves_raise | apply preserves_ret]. Qed.

Lemma preserves_gets {A} (P : world -> Prop) (f : world -> A) :
  preserves P (gets f).
Proof. intros w H. exact H. Qed.

Lemma preserves_modify (P : world -> Prop) (f : world -> world) :
  (forall w, P w -> P (f w)) -> preserves P (modify f).
Proof. intros Hf w H. now apply Hf. Qed.

Lemma preserves_bind {A B} (P : world -> Prop) (m : M A) (k : A -> M B) :
  preserves P m -> (forall a, preserves P (k a)) -> preserves P (bind m k).
Proof.
  intros Hm Hk w H. unfold bind. specialize (Hm w H).
  destruct (m w) as [[e|a] w1]; [exact Hm | now apply Hk].
Qed.

Lemma preserves_now : preserves stores_wf (now now_iso).
Proof. intros w H. exact H. Qed.

Lemma preserves_update_entry (uid : string) (f : user -> user) :
  preserves stores_wf (update_entry uid f).
Proof.
  apply preserves_modify. intros w [Hu Hi].
  destruct (Dict.lookup uid (users_db w)); [|now split].
  split; [now apply DictFacts.wf_set | assumption].
Qed.

Lemma preserves_entry (uid : string) : preserves stores_wf (entry uid).
Proof.
  apply preserves_bind; [apply preserves_gets|].
  intros [u|]; [apply preserves_ret | apply preserves_raise].
Qed.

Lemma preserves_overwrite_if_present
    (uid : string) (data : json) (key : string)
    (assign : json -> user -> user) :
  preserves stores_wf (overwrite_if_present uid data key assign).
Proof.
  apply preserves_bind; [apply preserves_lift|].
  intros [|]; [|apply preserves_ret].
  apply preserves_bind; [apply preserves_lift|].
  intros v. apply preserves_update_entry.
Qed.

(** Steps through the binds of a handler with the lemmas above. *)
Ltac preserve :=
  repeat first
    [ apply preserves_ret
    | apply preserves_raise
    | apply preserves_lift
    | apply preserves_gets
    | apply preserves_now
    | apply preserves_entry
    | apply preserves_update_entry
    | apply preserves_overwrite_if_present
    | apply preserves_bind; [|intros ?] ].

Lemma handle_preserves_wf (r : request) :
  preserves stores_wf (handle now_iso str_lower float_of_str r).
Proof.
  destruct r as [|uid|data|uid data|uid|q|data|iid]; cbn [handle].
  - unfold get_users. preserve.
  - unfold get_user. preserve. destruct a; preserve.
  - unfold create_user.
    destruct (negb (truthy data)); preserve.
    destruct (negb (truthy a)); preserve.
    apply preserves_modify. intros w [Hu Hi].
    split; [now apply DictFacts.wf_set | assumption].
  - unfold update_user. preserve.
    destruct (negb a); preserve.
  - unfold delete_user. preserve. destruct a; preserve.
    apply preserves_modify. intros w [Hu Hi].
    split; [now apply DictFacts.wf_remove | assumption].
  - unfold get_items. preserve. destruct (truthy _); preserve.
  - unfold create_item. preserve. destruct a; preserve.
    apply preserves_modify. intros w [Hu Hi].
    split; [assumption | now apply DictFacts.wf_set].
  - unfold delete_item. preserve. destruct a; preserve.
    apply preserves_modify. intros w [Hu Hi].
    split; [assumption | now apply DictFacts.wf_remove].
Qed.

(** Whatever requests the process has served since start-up, the keys of
    each store are pairwise distinct. *)
Lemma served_stores_wf (rs : list request) :
  stores_wf (snd (serve_all now_iso str_lower float_of_str rs initial)).
Proof.
  assert (Hgen : forall w, stores_wf w ->
            stores_wf (snd (serve_all now_iso str_lower float_of_str rs w))).
  { induction rs as [|r rs IH]; intros w Hwf; [exact Hwf|].
    rewrite serve_all_cons. apply IH.
    pose proof (handle_preserves_wf r w Hwf) as H.
    unfold serve. now destruct (handle _ _ _ r w) as [[e|resp] w1]. }
  apply Hgen. split; apply DictFacts.wf_empty.
Qed.

End Properties.

(** ** The theorems at concrete requests *)

(** [POST /users] with an empty [name] is refused. *)
Lemma create_user_rejects_missing_name_witness :
  lacks_name (JObj [("name", JStr "")])
  /\ exists msg,
       create_user ticking_clock (JObj [("name", JStr "")]) one_user
         = (inr {| body := JObj [("error", JStr msg)]; status := 400 |},
            one_user)
       /\ str_contains "name" msg = true.
Proof.
  assert (H : lacks_name (JObj [("name", JStr "")])).
  { right. exists [("name", JStr "")]. split; reflexivity. }
  split; [exact H|].
  exact (create_user_rejects_missing_name ticking_clock
           (JObj [("name", JStr "")]) one_user H).
Defined.

(** C5, as stated, fails on a body that is truthy and not an object:
    the array [[1]] has no [name], and [create_user] calls [get] on it,
    which raises; the client gets the 500 response, not a 400. *)
Lemma create_user_array_body_is_500 :
  contains "name" (JArr [JInt 1]) = inr false
  /\ create_user ticking_clock (JArr [JInt 1]) initial
     = (inl AttributeError, initial)
  /\ serve ticking_clock ascii_lower float_of_decimal
       (PostUsers (JArr [JInt 1])) initial
     = (internal_error AttributeError, initial)
  /\ status (fst (serve ticking_clock ascii_lower float_of_decimal
                    (PostUsers (JArr [JInt 1])) initial)) <> 400.
Proof.
  split; [reflexivity|]. split; [reflexivity|]. split; [reflexivity|].
  cbn. discriminate.
Qed.

(** [POST /users] with [alice] when the two readings of the clock
    coincide. *)
Lemma create_user_creates_witness :
  assoc "name" [("name", JStr "Alice")] = Some (JStr "Alice")
  /\ truthy (JStr "Alice") = true
  /\ exists u w',
       create_user frozen_clock alice initial
         = (inr {| body := user_json u; status := 201 |}, w')
       /\ user_id u = "1"
       /\ user_name u = JStr "Alice"
       /\ user_email u = JStr ""
       /\ user_created_at u = user_updated_at u
       /\ Dict.lookup "1" (users_db w') = Some u.
Proof.
  split; [reflexivity|]. split; [reflexivity|].
  destruct (create_user_creates frozen_clock [("name", JStr "Alice")]
              (JStr "Alice") initial eq_refl eq_refl) as [Hrun Hsame].
  eexists. eexists. split; [exact Hrun|].
  repeat split.
Defined.

(** C1, as stated, fails when the clock moves between the two readings:
    the created user has different [created_at] and [updated_at]. *)
Lemma create_user_stamps_differ :
  exists u,
    create_user ticking_clock alice initial
      = (inr {| body := user_json u; status := 201 |},
         {| users_db := [("1", u)]; items_db := []; clock_reads := 2 |})
    /\ user_created_at u = "2024-01-01T00:00:00.000000"
    /\ user_updated_at u = "2024-01-01T00:00:00.000001"
    /\ user_created_at u <> user_updated_at u.
Proof.
  exists {| user_id := "1"; user_name := JStr "Alice";
            user_email := JStr "";
            user_created_at := "2024-01-01T00:00:00.000000";
            user_updated_at := "2024-01-01T00:00:00.000001" |}.
  split; [reflexivity|]. split; [reflexivity|].
  split; [reflexivity|]. cbn [user_created_at user_updated_at]. discriminate.
Qed.

(** A missing body on the three routes that read one. *)
Lemma none_body_disagreement_witness :
  (exists u, Dict.lookup "1" (users_db one_user) = Some u)
  /\ status (fst (serve ticking_clock ascii_lower float_of_decimal
                    (PostUsers JNull) one_user)) = 400
  /\ status (fst (serve ticking_clock ascii_lower float_of_decimal
                    (PostItems JNull) one_user)) = 500
  /\ status (fst (serve ticking_clock ascii_lower float_of_decimal
                    (PutUser "1" JNull) one_user)) = 500.
Proof.
  assert (Hstored : exists u, Dict.lookup "1" (users_db one_user) = Some u)
    by (eexists; reflexivity).
  split; [exact Hstored|].
  destruct Hstored as [u Hu].
  destruct (none_body_disagreement ticking_clock ascii_lower float_of_decimal
              "1" u one_user Hu)
    as [[msg Hcreate] [_ [_ [Hitem [Hupdate _]]]]].
  rewrite Hcreate, Hitem, Hupdate. repeat split.
Defined.

(** [DELETE /users/1] twice after creating [alice]. *)
Lemma delete_user_removes_witness :
  Dict.wf (users_db one_user)
  /\ (exists u,
        Dict.lookup "1" (users_db one_user) = Some u
        /\ serve_all ticking_clock ascii_lower float_of_decimal
             [DeleteUser "1"; DeleteUser "1"] one_user
           = ([ {| body := JObj [("message", JStr user_deleted);
                                 ("user", user_json u)];
                   status := 200 |};
                error_response user_not_found 404 ],
              set_users Dict.empty one_user)).
Proof.
  assert (Hwf : Dict.wf (users_db one_user)).
  { repeat constructor. simpl. tauto. }
  split; [exact Hwf|].
  pose proof (delete_user_removes "1" one_user Hwf) as H.
  destruct (Dict.lookup "1" (users_db one_user)) as [u|] eqn:Hu;
    [|discriminate Hu].
  exists u. split; [reflexivity|].
  cbv zeta in H. destruct H as [Hfirst [_ [_ Hsecond]]].
  unfold serve_all, serve, handle.
  rewrite Hfirst. cbv beta iota. rewrite Hsecond. reflexivity.
Defined.

(** Three GET requests on a world with two items. *)
Lemma get_requests_leave_stores_witness :
  forallb is_get [GetUsers; GetUser "1"; GetItems (Some "wid")] = true
  /\ (let w' := snd (serve_all ticking_clock ascii_lower float_of_decimal
                        [GetUsers; GetUser "1"; GetItems (Some "wid")]
                        two_items) in
      users_db w' = users_db two_items
      /\ items_db w' = items_db two_items
      /\ Dict.len (items_db w') = 2).
Proof.
  split; [reflexivity|].
  destruct (get_requests_leave_stores ticking_clock ascii_lower
              float_of_decimal
              [GetUsers; GetUser "1"; GetItems (Some "wid")] two_items
              eq_refl) as [Husers [Hitems [_ Hcount]]].
  split; [exact Husers|]. split; [exact Hitems|].
  cbv zeta. rewrite Hcount. reflexivity.
Defined.

(** [POST /items] with the price ["9.99"]: the stored price is the
    binary64 number nearest to 9.99, [5623870034678907 * 2^-49]; with
    the price [5]: 5.0, [5629499534213120 * 2^-50]; with [true]: 1.0;
    and with a word, an integer of 400 digits and [None]: each a 500. *)
Lemma create_item_coerces_price_witness :
  let post price :=
    serve ticking_clock ascii_lower float_of_decimal
      (PostItems (JObj [("name", JStr "Widget"); ("price", price)])) initial in
  let stored price :=
    let i := {| item_id := "1";
                item_name := JStr "Widget";
                item_price := price;
                item_description := JStr "";
                item_created_at := "2024-01-01T00:00:00.000000" |} in
    ({| body := item_json i; status := 201 |},
     {| users_db := []; items_db := [("1", i)]; clock_reads := 1 |}) in
  assoc "name" [("name", JStr "Widget"); ("price", JStr "9.99")]
    = Some (JStr "Widget")
  /\ assoc "price" [("name", JStr "Widget"); ("price", JStr "9.99")]
      = Some (JStr "9.99")
  /\ post (JStr "9.99")
      = stored (S754_finite false 5623870034678907 (-49))
  /\ post (JInt 5) = stored (S754_finite false 5629499534213120 (-50))
  /\ post (JBool true) = stored (S754_finite false 4503599627370496 (-52))
  /\ post (JStr "cheap") = (internal_error ValueError, initial)
  /\ post (JInt (10 ^ 400)) = (internal_error OverflowError, initial)
  /\ post JNull = (internal_error TypeError, initial).
Proof.
  cbv zeta.
  split; [reflexivity|]. split; [reflexivity|].
  pose proof (fun price =>
                create_item_coerces_price ticking_clock ascii_lower
                  float_of_decimal
                  [("name", JStr "Widget"); ("price", price)]
                  (JStr "Widget") price initial eq_refl eq_refl) as H.
  pose proof (H (JStr "9.99")) as Hdecimal.
  pose proof (H (JInt 5)) as Hint.
  pose proof (H (JBool true)) as Htrue.
  pose proof (H (JStr "cheap")) as Hword.
  pose proof (H (JInt (10 ^ 400))) as Hhuge.
  pose proof (H JNull) as Hnone.
  assert (Hrange : binary_normalize 53 1024 (10 ^ 400) 0 false
                   = S754_infinity false)
    by (vm_compute; reflexivity).
  cbv beta iota zeta in Hdecimal, Hint, Htrue, Hword, Hhuge, Hnone.
  rewrite Hrange in Hhuge.
  unfold serve at 1 2 3. unfold handle at 1 2 3.
  rewrite Hdecimal, Hint, Htrue.
  split; [reflexivity|]. split; [reflexivity|]. split; [reflexivity|].
  split; [exact (proj1 (proj2 Hword))|].
  split; [exact (proj1 (proj2 Hhuge))|].
  exact (proj1 (proj2 Hnone)).
Defined.

(** [POST /items] with a price that [float] rejects. *)
Example create_item_bad_price :
  serve ticking_clock ascii_lower float_of_decimal
    (PostItems (JObj [("name", JStr "Widget"); ("price", JStr "cheap")]))
    initial
  = (internal_error ValueError, initial).
Proof. reflexivity. Qed.



(** A falsy [name] passes [create_item] and not [create_user]. *)
Lemma create_item_checks_presence_witness :
  let data := JObj [("name", JStr ""); ("price", JInt 1)] in
  status (fst (serve ticking_clock ascii_lower float_of_decimal
                 (PostItems data) initial)) = 201
  /\ status (fst (serve ticking_clock ascii_lower float_of_decimal
                    (PostUsers data) initial)) = 400
  /\ create_item ticking_clock float_of_decimal
       (JObj [("name", JStr "Widget")]) initial
     = (inr (error_response (missing_field ++ "price") 400), initial)
  /\ create_item ticking_clock float_of_decimal (JObj []) initial
     = (inr (error_response (missing_field ++ "name") 400), initial).
Proof.
  cbv zeta.
  destruct (create_item_checks_presence ticking_clock ascii_lower
              float_of_decimal [("name", JStr ""); ("price", JInt 1)] initial)
    as [_ [_ [_ Hfalsy]]].
  destruct (Hfalsy (JStr "") (JInt 1) eq_refl eq_refl eq_refl) as [_ Huser].
  split; [reflexivity|]. split; [exact Huser|]. split; reflexivity.
Defined.

(** [PUT /users/1] with only an [email], after creating [alice]. *)
Lemma update_user_partial_update_witness :
  exists u,
    update_user ticking_clock "1" (JObj [("email", JStr "a@x.com")]) one_user
      = (inr {| body := user_json u; status := 200 |},
         {| users_db := [("1", u)]; items_db := []; clock_reads := 3 |})
    /\ u = {| user_id := "1";
              user_name := JStr "Alice";
              user_email := JStr "a@x.com";
              user_created_at := "2024-01-01T00:00:00.000000";
              user_updated_at := "2024-01-01T00:00:00.000002" |}.
Proof.
  eexists. split; [|reflexivity].
  exact (update_user_partial_update ticking_clock "1"
           [("email", JStr "a@x.com")] one_user).
Defined.

(** * Further properties of the handlers *)

(** ** What each handler does, case by case *)

Section Cases.

Variable now_iso : nat -> string.
Variable str_lower : string -> string.
Variable float_of_str : string -> option spec_float.

(** [create_user] on a request object. *)
Lemma create_user_object (kvs : list (string * json)) (w : world) :
  create_user now_iso (JObj kvs) w
  = match assoc "name" kvs with
    | Some name =>
        if truthy name then
          let uid := str (Dict.len (users_db w) + 1) in
          let u := {| user_id := uid;
                      user_name := name;
                      user_email := match assoc "email" kvs with
                                    | Some e => e
                                    | None => JStr ""
                                    end;
                      user_created_at := now_iso (clock_reads w);
                      user_updated_at := now_iso (S (clock_reads w)) |} in
          (inr {| body := user_json u; status := 201 |},
           {| users_db := Dict.set uid u (users_db w);
              items_db := items_db w;
              clock_reads := S (S (clock_reads w)) |})
        else (inr (error_response (missing_field ++ "name") 400), w)
    | None => (inr (error_response (missing_field ++ "name") 400), w)
    end.
Proof.
  unfold create_user. destruct kvs as [|kv kvs]; [reflexivity|].
  cbn [truthy negb]. run. cbn [get getitem].
  destruct (assoc "name" (kv :: kvs)) as [name|]; [|reflexivity].
  now destruct (truthy name).
Qed.

(** [create_user] on a body that is not an object. *)
Lemma create_user_other (data : json) (w : world) :
  (forall kvs, data <> JObj kvs) ->
  create_user now_iso data w
  = if truthy data then (inl AttributeError, w)
    else (inr (error_response (missing_field ++ "name") 400), w).
Proof.
  intros Hnot. unfold create_user.
  destruct (truthy data) eqn:Htruthy; [|reflexivity].
  cbn [negb]. run. destruct data; try reflexivity. now destruct (Hnot kvs).
Qed.

(** [create_item] on a body that is not an object: the two membership
    tests, then [data['name']] raises. *)
Lemma create_item_other (data : json) (w : world) :
  (forall kvs, data <> JObj kvs) ->
  create_item now_iso float_of_str data w
  = match contains "name" data, contains "price" data with
    | inl e, _ => (inl e, w)
    | inr false, _ =>
        (inr (error_response (missing_field ++ "name") 400), w)
    | inr true, inl e => (inl e, w)
    | inr true, inr false =>
        (inr (error_response (missing_field ++ "price") 400), w)
    | inr true, inr true => (inl TypeError, w)
    end.
Proof.
  intros Hnot. unfold create_item. cbn [first_missing required_fields].
  destruct data; try reflexivity; try (now destruct (Hnot kvs));
    cbn [contains];
    repeat match goal with
           | |- context [str_contains ?a ?b] => destruct (str_contains a b)
           | |- context [existsb ?f ?l] => destruct (existsb f l)
           end; reflexivity.
Qed.

(** [update_user] on an id that is not stored. *)
Lemma update_user_unknown (uid : string) (data : json) (w : world) :
  Dict.lookup uid (users_db w) = None ->
  update_user now_iso uid data w
  = (inr (error_response user_not_found 404), w).
Proof.
  intros H. unfold update_user, Dict.mem. run. now rewrite H.
Qed.

(** Unfolds [update_user] on a stored id down to the tests on the body. *)
Ltac run_update Hstored :=
  unfold update_user, overwrite_if_present, entry, update_entry, Dict.mem;
  run; rewrite ?Hstored; cbn [negb contains getitem];
  repeat (cbn [users_db items_db clock_reads set_users tick];
          rewrite ?Hstored, ?DictFacts.lookup_set_same, ?DictFacts.set_set).

(** [update_user] on a stored id and a request object. *)
Lemma update_user_object
    (uid : string) (kvs : list (string * json)) (w : world) (u : user) :
  Dict.lookup uid (users_db w) = Some u ->
  let u' := {| user_id := user_id u;
               user_name := match assoc "name" kvs with
                            | Some v => v
                            | None => user_name u
                            end;
               user_email := match assoc "email" kvs with
                             | Some v => v
                             | None => user_email u
                             end;
               user_created_at := user_created_at u;
               user_updated_at := now_iso (clock_reads w) |} in
  update_user now_iso uid (JObj kvs) w
  = (inr {| body := user_json u'; status := 200 |}, restamped uid u' w).
Proof.
  intros Hstored u'. subst u'.
  destruct (assoc "name" kvs) as [n|] eqn:Hn,
           (assoc "email" kvs) as [e|] eqn:He;
    run_update Hstored; rewrite ?Hn, ?He;
    repeat (cbn [users_db items_db clock_reads set_users tick];
            rewrite ?Hstored, ?DictFacts.lookup_set_same, ?DictFacts.set_set);
    reflexivity.
Qed.

(** [update_user] on a stored id and a body that is not an object: a
    string or an array that mentions neither key only gets a new
    [updated_at]; every other body raises before anything is written. *)
Lemma update_user_other
    (uid : string) (data : json) (w : world) (u : user) :
  Dict.lookup uid (users_db w) = Some u ->
  (forall kvs, data <> JObj kvs) ->
  update_user now_iso uid data w
  = match contains "name" data, contains "email" data with
    | inr false, inr false =>
        let u' := with_updated_at (now_iso (clock_reads w)) u in
        (inr {| body := user_json u'; status := 200 |}, restamped uid u' w)
    | inl e, _ => (inl e, w)
    | inr false, inl e => (inl e, w)
    | _, _ => (inl TypeError, w)
    end.
Proof.
  intros Hstored Hnot.
  destruct data; try (now destruct (Hnot kvs)); run_update Hstored;
    try reflexivity;
    repeat match goal with
           | |- context [str_contains ?a ?b] => destruct (str_contains a b)
           | |- context [existsb ?f ?l] => destruct (existsb f l)
           end;
    repeat (cbn [users_db items_db clock_reads set_users tick];
            rewrite ?Hstored, ?DictFacts.lookup_set_same, ?DictFacts.set_set);
    reflexivity.
Qed.

End Cases.

(** ** Outcomes *)

Ltac pick := solve [ reflexivity | left; pick | right; pick ].

(** Closes a goal [is_success resp \/ (is_error resp /\ w' = w)] on a
    response that is known. *)
Ltac outcome :=
  cbn [fst snd];
  first
    [ left; unfold is_success; cbn [status]; pick
    | right; split;
      [ split;
        [ cbn [status error_response internal_error]; pick
        | eexists; eexists; split; reflexivity ]
      | reflexivity ] ].

Lemma object_or_not (data : json) :
  (exists kvs, data = JObj kvs) \/ (forall kvs, data <> JObj kvs).
Proof. destruct data; try (right; discriminate). left. eauto. Qed.

Section Outcomes.

Variable now_iso : nat -> string.
Variable str_lower : string -> string.
Variable float_of_str : string -> option spec_float.

(** A response is a success, or it is an error and the world has not
    moved. *)
Lemma serve_outcome (r : request) (w : world) :
  is_success (fst (serve now_iso str_lower float_of_str r w))
  \/ (is_error (fst (serve now_iso str_lower float_of_str r w))
      /\ snd (serve now_iso str_lower float_of_str r w) = w).
Proof.
  destruct r as [|uid|data|uid data|uid|q|data|iid]; unfold serve, handle.
  - outcome.
  - unfold get_user. run.
    destruct (Dict.lookup uid (users_db w)); outcome.
  - destruct (object_or_not data) as [[kvs ->]|Hnot].
    + rewrite create_user_object.
      destruct (assoc "name" kvs) as [name|]; [|outcome].
      destruct (truthy name); outcome.
    + rewrite create_user_other by assumption.
      destruct (truthy data); outcome.
  - destruct (Dict.lookup uid (users_db w)) as [u|] eqn:Hstored;
      [|rewrite update_user_unknown by assumption; outcome].
    destruct (object_or_not data) as [[kvs ->]|Hnot].
    + rewrite (update_user_object now_iso uid kvs w u Hstored). outcome.
    + rewrite (update_user_other now_iso uid data w u Hstored Hnot).
      destruct (contains "name" data) as [?|[|]]; try outcome;
        destruct (contains "email" data) as [?|[|]]; outcome.
  - unfold delete_user. run.
    destruct (Dict.lookup uid (users_db w)); outcome.
  - unfold get_items. run.
    destruct (truthy _); [|outcome].
    destruct (matching str_lower _ _); outcome.
  - destruct (object_or_not data) as [[kvs ->]|Hnot].
    + rewrite create_item_object.
      destruct (assoc "name" kvs); [|outcome].
      destruct (assoc "price" kvs) as [raw|]; [|outcome].
      destruct (float float_of_str raw); outcome.
    + rewrite create_item_other by assumption.
      destruct (contains "name" data) as [?|[|]]; try outcome;
        destruct (contains "price" data) as [?|[|]]; outcome.
  - unfold delete_item. run.
    destruct (Dict.lookup iid (items_db w)); outcome.
Qed.

(** X1. Whatever is asked of the API, an answer with status 400 or more
    leaves the whole world (both stores and the clock) as it was: no
    request is half done. *)
Theorem errors_change_nothing (r : request) (w : world) :
  400 <= status (fst (serve now_iso str_lower float_of_str r w)) ->
  snd (serve now_iso str_lower float_of_str r w) = w.
Proof.
  intros Hstatus.
  destruct (serve_outcome r w) as [[H|H] | [_ H]]; [| |exact H];
    rewrite H in Hstatus; lia.
Qed.

(** X2. When a handler returns a response, rather than raising, its
    status is 200, 201, 400 or 404; a 201 comes from a POST only, a 400
    from a POST only and a 404 from a route with an id only; and the
    body of a 400 or a 404 is an object with the one key [error], which
    holds a string. *)
Theorem handler_returns_success_or_error
    (r : request) (w w' : world) (resp : response) :
  handle now_iso str_lower float_of_str r w = (inr resp, w') ->
  (status resp = 200
   \/ (status resp = 201 /\ is_post r = true)
   \/ (status resp = 400 /\ is_post r = true)
   \/ (status resp = 404 /\ has_id r = true))
  /\ (status resp = 400 \/ status resp = 404 ->
      exists msg, body resp = JObj [("error", JStr msg)]).
Proof.
  destruct r as [|uid|data|uid data|uid|q|data|iid]; cbn [handle].
  - unfold get_users. run. intros H. injection H as <- _.
    cbn [status]. split; [now left|]. intros [H|H]; discriminate.
  - unfold get_user. run.
    destruct (Dict.lookup uid (users_db w)); intros H; injection H as <- _;
      cbn [status body error_response].
    + split; [now left|]. intros [H|H]; discriminate.
    + split; [right; right; right; now split|]. intros _. now eexists.
  - destruct (object_or_not data) as [[kvs ->]|Hnot].
    + rewrite create_user_object.
      destruct (assoc "name" kvs) as [name|];
        [destruct (truthy name)|]; cbv zeta; intros H; injection H as <- _;
        cbn [status body error_response].
      * split; [right; left; now split|]. intros [H|H]; discriminate.
      * split; [right; right; left; now split|]. intros _. now eexists.
      * split; [right; right; left; now split|]. intros _. now eexists.
    + rewrite create_user_other by assumption.
      destruct (truthy data); [discriminate|].
      intros H; injection H as <- _. cbn [status body error_response].
      split; [right; right; left; now split|]. intros _. now eexists.
  - destruct (Dict.lookup uid (users_db w)) as [u|] eqn:Hstored.
    + destruct (object_or_not data) as [[kvs ->]|Hnot].
      * rewrite (update_user_object now_iso uid kvs w u Hstored).
        cbv zeta. intros H; injection H as <- _. cbn [status].
        split; [now left|]. intros [H|H]; discriminate.
      * rewrite (update_user_other now_iso uid data w u Hstored Hnot).
        destruct (contains "name" data) as [?|[|]]; try discriminate;
          destruct (contains "email" data) as [?|[|]]; try discriminate.
        cbv zeta. intros H; injection H as <- _. cbn [status].
        split; [now left|]. intros [H|H]; discriminate.
    + rewrite update_user_unknown by assumption.
      intros H; injection H as <- _. cbn [status body error_response].
      split; [right; right; right; now split|]. intros _. now eexists.
  - unfold delete_user. run.
    destruct (Dict.lookup uid (users_db w)); intros H; injection H as <- _;
      cbn [status body error_response].
    + split; [now left|]. intros [H|H]; discriminate.
    + split; [right; right; right; now split|]. intros _. now eexists.
  - unfold get_items. run.
    destruct (truthy _);
      [destruct (matching str_lower _ _); [discriminate|]|];
      intros H; injection H as <- _; cbn [status];
      (split; [now left|]; intros [H|H]; discriminate).
  - destruct (object_or_not data) as [[kvs ->]|Hnot].
    + rewrite create_item_object.
      destruct (assoc "name" kvs);
        [destruct (assoc "price" kvs) as [raw|];
         [destruct (float float_of_str raw); [discriminate|]|]|];
        cbv zeta; intros H; injection H as <- _;
        cbn [status body error_response].
      * split; [right; left; now split|]. intros [H|H]; discriminate.
      * split; [right; right; left; now split|]. intros _. now eexists.
      * split; [right; right; left; now split|]. intros _. now eexists.
    + rewrite create_item_other by assumption.
      destruct (contains "name" data) as [?|[|]]; try discriminate;
        try destruct (contains "price" data) as [?|[|]]; try discriminate;
        intros H; injection H as <- _; cbn [status body error_response];
        (split; [right; right; left; now split|]; intros _; now eexists).
  - unfold delete_item. run.
    destruct (Dict.lookup iid (items_db w)); intros H; injection H as <- _;
      cbn [status body error_response].
    + split; [now left|]. intros [H|H]; discriminate.
    + split; [right; right; right; now split|]. intros _. now eexists.
Qed.

(** X3. [POST /users] answers 201 exactly when the body is an object
    with a truthy [name], 400 exactly when the body is falsy or an
    object without a truthy [name], and 500 exactly when the body is
    truthy and not an object. *)
Theorem create_user_status (data : json) (w : world) :
  let code := status (fst (serve now_iso str_lower float_of_str
                             (PostUsers data) w)) in
  (code = 201 <-> exists kvs name,
      data = JObj kvs /\ assoc "name" kvs = Some name /\ truthy name = true)
  /\ (code = 400 <-> lacks_name data)
  /\ (code = 500 <-> truthy data = true /\ forall kvs, data <> JObj kvs).
Proof.
  cbv zeta. unfold serve, handle, lacks_name.
  destruct (object_or_not data) as [[kvs ->]|Hnot].
  - rewrite create_user_object.
    destruct (assoc "name" kvs) as [name|] eqn:Hname;
      [destruct (truthy name) eqn:Htruthy|];
      cbn [fst status error_response]; (split; [|split]); split;
      try discriminate; try reflexivity.
    + intros _. exists kvs, name. auto.
    + intros [H|[kvs' [H H']]].
      * destruct kvs; discriminate.
      * injection H as <-. rewrite Hname in H'. congruence.
    + intros [_ H]. now destruct (H kvs).
    + intros [kvs' [name' [H [H1 H2]]]]. injection H as <-. congruence.
    + intros _. right. exists kvs. split; [reflexivity|]. now rewrite Hname.
    + intros [_ H]. now destruct (H kvs).
    + intros [kvs' [name' [H [H1 H2]]]]. injection H as <-. congruence.
    + intros _. right. exists kvs. split; [reflexivity|]. now rewrite Hname.
    + intros [_ H]. now destruct (H kvs).
  - rewrite create_user_other by assumption.
    destruct (truthy data) eqn:Htruthy;
      cbn [fst status error_response internal_error]; (split; [|split]); split;
      try discriminate; try reflexivity.
    + intros [kvs [name [H _]]]. now destruct (Hnot kvs).
    + intros [H|[kvs [H _]]]; [discriminate | now destruct (Hnot kvs)].
    + intros _. split; [reflexivity | assumption].
    + intros [kvs [name [H _]]]. now destruct (Hnot kvs).
    + intros _. now left.
    + intros [H _]. discriminate.
Qed.

End Outcomes.

(** ** More on dictionaries *)

Module DictMore.

Section Facts.

Context {V : Type}.
Implicit Types (d : Dict.t V) (k : string) (v : V).

Lemma lookup_In k v d : Dict.lookup k d = Some v -> In (k, v) d.
Proof.
  induction d as [|[k' v'] rest IH]; simpl; [discriminate|].
  destruct (String.eqb k k') eqn:E; intros H.
  - apply String.eqb_eq in E. left. congruence.
  - right. auto.
Qed.

Lemma In_set k v d k' v' :
  In (k', v') (Dict.set k v d) -> (k', v') = (k, v) \/ In (k', v') d.
Proof.
  induction d as [|[k0 v0] rest IH]; simpl.
  - intros [H|[]]. left. congruence.
  - destruct (String.eqb k k0) eqn:E; simpl.
    + apply String.eqb_eq in E. subst k0.
      intros [H|H]; [left; congruence | right; right; exact H].
    + intros [H|H]; [right; left; exact H|].
      destruct (IH H); [left | right; right]; assumption.
Qed.

Lemma In_remove k d k' v' : In (k', v') (Dict.remove k d) -> In (k', v') d.
Proof.
  induction d as [|[k0 v0] rest IH]; simpl; [tauto|].
  destruct (String.eqb k k0); simpl; tauto.
Qed.

Lemma remove_set_new k v d :
  Dict.lookup k d = None -> Dict.remove k (Dict.set k v d) = d.
Proof.
  induction d as [|[k' v'] rest IH]; simpl.
  - now rewrite String.eqb_refl.
  - destruct (String.eqb k k') eqn:E; [discriminate|].
    intros H. simpl. rewrite E. now rewrite IH.
Qed.

Lemma values_set_new k v d :
  Dict.lookup k d = None -> Dict.values (Dict.set k v d) = Dict.values d ++ [v].
Proof.
  unfold Dict.values.
  induction d as [|[k' v'] rest IH]; simpl; [reflexivity|].
  destruct (String.eqb k k'); [discriminate|].
  intros H. simpl. now rewrite IH.
Qed.

End Facts.

End DictMore.

(** ** Decimal ids *)

Lemma to_uint_not_nil (n : nat) : Nat.to_uint n <> Decimal.Nil.
Proof.
  pose proof (DecimalNat.Unsigned.to_of (Nat.to_uint n)) as H.
  rewrite DecimalNat.Unsigned.of_to in H. rewrite H.
  apply DecimalFacts.unorm_nonnil.
Qed.

(** [str] gives different strings to different numbers. *)
Lemma str_inj (a b : nat) : str a = str b -> a = b.
Proof.
  unfold str. intros H.
  apply (f_equal NilZero.uint_of_string) in H.
  rewrite !NilZero.usu in H by apply to_uint_not_nil.
  apply DecimalNat.Unsigned.to_uint_inj. congruence.
Qed.

Lemma sequential_fresh {V} (d : Dict.t V) :
  sequential d -> Dict.lookup (str (Dict.len d + 1)) d = None.
Proof.
  intros Hseq. apply DictFacts.lookup_None. rewrite Hseq.
  intros Hin. apply in_map_iff in Hin as [x [Hx Hin]].
  apply str_inj in Hx. apply in_seq in Hin. lia.
Qed.

Lemma sequential_set_new {V} (d : Dict.t V) (v : V) :
  sequential d -> sequential (Dict.set (str (Dict.len d + 1)) v d).
Proof.
  intros Hseq. pose proof (sequential_fresh d Hseq) as Hfresh.
  unfold sequential.
  rewrite DictFacts.keys_set_new, DictFacts.len_set_new by assumption.
  rewrite seq_S, map_app, <- Hseq. simpl.
  now rewrite Nat.add_comm.
Qed.

Lemma sequential_set_known {V} (d : Dict.t V) (k : string) (v : V) :
  Dict.mem k d = true -> sequential d -> sequential (Dict.set k v d).
Proof.
  intros Hmem Hseq. unfold sequential.
  now rewrite DictFacts.keys_set_known, DictFacts.len_set_known.
Qed.

(** ** Frames *)

Section Frames.

Variable now_iso : nat -> string.
Variable str_lower : string -> string.
Variable float_of_str : string -> option spec_float.

Lemma serve_world (r : request) (w : world) :
  snd (serve now_iso str_lower float_of_str r w)
  = snd (handle now_iso str_lower float_of_str r w).
Proof.
  unfold serve. now destruct (handle _ _ _ r w) as [[e|resp] w'].
Qed.

Section Stable.

Variable P : world -> Prop.
Hypothesis P_tick : forall w, P w -> P (tick w).

Lemma stable_now : preserves P (now now_iso).
Proof. intros w H. now apply P_tick. Qed.

Lemma stable_update_entry (uid : string) (f : user -> user) :
  (forall w d, P w -> P (set_users d w)) ->
  preserves P (update_entry uid f).
Proof.
  intros Hset. apply preserves_modify. intros w H.
  destruct (Dict.lookup uid (users_db w)); auto.
Qed.

(** Steps through the binds of a handler. *)
Ltac stable Hset :=
  repeat first
    [ apply preserves_ret
    | apply preserves_raise
    | apply preserves_lift
    | apply preserves_gets
    | apply stable_now
    | apply (stable_update_entry _ _ Hset)
    | apply preserves_modify; intros ? ?; now apply Hset
    | apply preserves_bind; [|intros ?] ].

(** A property of the world that no write to the user store and no
    reading of the clock can break survives every user route. *)
Lemma user_routes_preserve (r : request) :
  on_users r = true ->
  (forall w d, P w -> P (set_users d w)) ->
  preserves P (handle now_iso str_lower float_of_str r).
Proof.
  intros Hr Hset.
  destruct r as [|uid|data|uid data|uid|q|data|iid]; try discriminate;
    cbn [handle].
  - unfold get_users. stable Hset.
  - unfold get_user. stable Hset. destruct a; stable Hset.
  - unfold create_user.
    destruct (negb (truthy data)); stable Hset.
    destruct (negb (truthy a)); stable Hset.
  - unfold update_user, entry, overwrite_if_present. stable Hset.
    destruct (negb a); stable Hset.
    + destruct a0; stable Hset.
    + destruct a1; stable Hset.
    + destruct a2; stable Hset.
    + destruct a6; stable Hset.
  - unfold delete_user. stable Hset. destruct a; stable Hset.
Qed.

(** The same for the item store and the item routes. *)
Lemma item_routes_preserve (r : request) :
  on_users r = false ->
  (forall w d, P w -> P (set_items d w)) ->
  preserves P (handle now_iso str_lower float_of_str r).
Proof.
  intros Hr Hset.
  destruct r as [|uid|data|uid data|uid|q|data|iid]; try discriminate;
    cbn [handle].
  - unfold get_items. stable Hset. destruct (truthy _); stable Hset.
  - unfold create_item. stable Hset. destruct a; stable Hset.
  - unfold delete_item. stable Hset. destruct a; stable Hset.
Qed.

End Stable.

(** X4. The two stores are independent: a request on a user route
    leaves the item store as it was, and a request on an item route
    leaves the user store as it was, whatever the request carries and
    however it ends. *)
Theorem stores_are_independent (r : request) (w : world) :
  let w' := snd (serve now_iso str_lower float_of_str r w) in
  (on_users r = true -> items_db w' = items_db w)
  /\ (on_users r = false -> users_db w' = users_db w).
Proof.
  cbv zeta. rewrite serve_world. split; intros Hr.
  - apply (user_routes_preserve (fun w' => items_db w' = items_db w));
      auto.
  - apply (item_routes_preserve (fun w' => users_db w' = users_db w));
      auto.
Qed.

End Frames.

(** ** Ids *)

Section Ids.

Variable now_iso : nat -> string.
Variable str_lower : string -> string.
Variable float_of_str : string -> option spec_float.

Lemma keyed_tick (w : world) : keyed_by_id w -> keyed_by_id (tick w).
Proof. intros H. exact H. Qed.

Lemma keyed_set_user (uid : string) (u : user) (w : world) :
  user_id u = uid ->
  keyed_by_id w ->
  keyed_by_id (set_users (Dict.set uid u (users_db w)) w).
Proof.
  intros Hid [Hu Hi]. split; [|exact Hi].
  intros k u' Hin. cbn [users_db set_users] in Hin.
  apply DictMore.In_set in Hin as [Heq|Hin]; [congruence | auto].
Qed.

Lemma keyed_set_item (iid : string) (i : item) (w : world) :
  item_id i = iid ->
  keyed_by_id w ->
  keyed_by_id (set_items (Dict.set iid i (items_db w)) w).
Proof.
  intros Hid [Hu Hi]. split; [exact Hu|].
  intros k i' Hin. cbn [items_db set_items] in Hin.
  apply DictMore.In_set in Hin as [Heq|Hin]; [congruence | auto].
Qed.

Lemma keyed_update_entry (uid : string) (f : user -> user) :
  (forall u, user_id (f u) = user_id u) ->
  preserves keyed_by_id (update_entry uid f).
Proof.
  intros Hf. apply preserves_modify. intros w Hk.
  destruct (Dict.lookup uid (users_db w)) as [u|] eqn:Hstored; [|exact Hk].
  apply keyed_set_user; [|exact Hk].
  rewrite Hf. destruct Hk as [Hu _]. apply Hu.
  now apply DictMore.lookup_In.
Qed.

Ltac keyed :=
  repeat first
    [ apply preserves_ret
    | apply preserves_raise
    | apply preserves_lift
    | apply preserves_gets
    | apply (stable_now now_iso keyed_by_id keyed_tick)
    | apply keyed_update_entry; intros ?; reflexivity
    | apply preserves_bind; [|intros ?] ].

Lemma handle_keeps_keyed (r : request) :
  preserves keyed_by_id (handle now_iso str_lower float_of_str r).
Proof.
  destruct r as [|uid|data|uid data|uid|q|data|iid]; cbn [handle].
  - unfold get_users. keyed.
  - unfold get_user. keyed. destruct a; keyed.
  - unfold create_user.
    destruct (negb (truthy data)); keyed.
    destruct (negb (truthy a)); keyed.
    apply preserves_modify. intros w Hk. now apply keyed_set_user.
  - unfold update_user, entry, overwrite_if_present. keyed.
    destruct (negb a); keyed.
    + destruct a0; keyed.
    + destruct a1; keyed.
    + destruct a2; keyed.
    + destruct a6; keyed.
  - unfold delete_user. keyed. destruct a; keyed.
    apply preserves_modify. intros w [Hu Hi]. split; [|exact Hi].
    intros k x Hin. apply Hu. eapply DictMore.In_remove, Hin.
  - unfold get_items. keyed. destruct (truthy _); keyed.
  - unfold create_item. keyed. destruct a; keyed.
    apply preserves_modify. intros w Hk. now apply keyed_set_item.
  - unfold delete_item. keyed. destruct a; keyed.
    apply preserves_modify. intros w [Hu Hi]. split; [exact Hu|].
    intros k x Hin. apply Hi. eapply DictMore.In_remove, Hin.
Qed.

(** X5. Whatever requests have been served since start-up, each stored
    user and each stored item is stored under its own [id]: what
    [GET /users/<k>] returns has [id] equal to [k]. *)
Theorem stored_under_own_id (rs : list request) (k : string) :
  let w := snd (serve_all now_iso str_lower float_of_str rs initial) in
  (forall u, Dict.lookup k (users_db w) = Some u -> user_id u = k)
  /\ (forall i, Dict.lookup k (items_db w) = Some i -> item_id i = k).
Proof.
  cbv zeta.
  assert (Hgen : forall w, keyed_by_id w ->
            keyed_by_id (snd (serve_all now_iso str_lower float_of_str rs w))).
  { induction rs as [|r rs IH]; intros w Hk; [exact Hk|].
    rewrite serve_all_cons, serve_world. apply IH.
    now apply handle_keeps_keyed. }
  destruct (Hgen initial) as [Hu Hi].
  { split; intros ? ? []. }
  split; intros x Hx; [apply Hu | apply Hi]; now apply DictMore.lookup_In.
Qed.

(** Every request but [DELETE /users/<id>] keeps the user ids
    sequential. *)
Lemma users_stay_sequential (r : request) (w : world) :
  is_delete_user r = false ->
  sequential (users_db w) ->
  sequential (users_db (snd (serve now_iso str_lower float_of_str r w))).
Proof.
  intros Hr Hseq.
  destruct (on_users r) eqn:Hon.
  - destruct r as [|uid|data|uid data|uid|q|data|iid]; try discriminate.
    + now rewrite get_request_pure.
    + now rewrite get_request_pure.
    + rewrite serve_world. cbn [handle].
      destruct (object_or_not data) as [[kvs ->]|Hnot].
      * rewrite create_user_object.
        destruct (assoc "name" kvs) as [name|]; [|exact Hseq].
        destruct (truthy name); [|exact Hseq].
        cbn [snd users_db]. now apply sequential_set_new.
      * rewrite create_user_other by assumption.
        now destruct (truthy data).
    + rewrite serve_world. cbn [handle].
      destruct (Dict.lookup uid (users_db w)) as [u|] eqn:Hstored;
        [|now rewrite update_user_unknown].
      assert (Hmem : Dict.mem uid (users_db w) = true)
        by (unfold Dict.mem; now rewrite Hstored).
      destruct (object_or_not data) as [[kvs ->]|Hnot].
      * rewrite (update_user_object now_iso uid kvs w u Hstored).
        cbn [snd restamped users_db]. now apply sequential_set_known.
      * rewrite (update_user_other now_iso uid data w u Hstored Hnot).
        destruct (contains "name" data) as [?|[|]]; try exact Hseq;
          destruct (contains "email" data) as [?|[|]]; try exact Hseq.
        cbn [snd restamped users_db]. now apply sequential_set_known.
  - rewrite serve_world.
    now rewrite (item_routes_preserve now_iso str_lower float_of_str
                   (fun w' => users_db w' = users_db w)) by auto.
Qed.

(** Every request but [DELETE /items/<id>] keeps the item ids
    sequential. *)
Lemma items_stay_sequential (r : request) (w : world) :
  is_delete_item r = false ->
  sequential (items_db w) ->
  sequential (items_db (snd (serve now_iso str_lower float_of_str r w))).
Proof.
  intros Hr Hseq.
  destruct (on_users r) eqn:Hon.
  - rewrite serve_world.
    now rewrite (user_routes_preserve now_iso str_lower float_of_str
                   (fun w' => items_db w' = items_db w)) by auto.
  - destruct r as [|uid|data|uid data|uid|q|data|iid]; try discriminate.
    + now rewrite get_request_pure.
    + rewrite serve_world. cbn [handle].
      destruct (object_or_not data) as [[kvs ->]|Hnot].
      * rewrite create_item_object.
        destruct (assoc "name" kvs); [|exact Hseq].
        destruct (assoc "price" kvs) as [raw|]; [|exact Hseq].
        destruct (float float_of_str raw); [exact Hseq|].
        cbn [snd items_db]. now apply sequential_set_new.
      * rewrite create_item_other by assumption.
        destruct (contains "name" data) as [?|[|]]; try exact Hseq;
          destruct (contains "price" data) as [?|[|]]; exact Hseq.
Qed.

(** X6. As long as no user has been deleted, the user ids are ["1"],
    ["2"], ... in the order of creation and the id that the next
    [POST /users] would take is not in use; the same holds of the items
    as long as no item has been deleted. *)
Theorem ids_sequential_without_delete (rs : list request) :
  let w := snd (serve_all now_iso str_lower float_of_str rs initial) in
  (forallb (fun r => negb (is_delete_user r)) rs = true ->
   Dict.keys (users_db w) = map str (seq 1 (Dict.len (users_db w)))
   /\ Dict.mem (str (Dict.len (users_db w) + 1)) (users_db w) = false)
  /\ (forallb (fun r => negb (is_delete_item r)) rs = true ->
      Dict.keys (items_db w) = map str (seq 1 (Dict.len (items_db w)))
      /\ Dict.mem (str (Dict.len (items_db w) + 1)) (items_db w) = false).
Proof.
  cbv zeta.
  assert (Husers : forall w,
            forallb (fun r => negb (is_delete_user r)) rs = true ->
            sequential (users_db w) ->
            sequential (users_db (snd (serve_all now_iso str_lower
                                         float_of_str rs w)))).
  { induction rs as [|r rs IH]; intros w Hrs Hseq; [exact Hseq|].
    simpl in Hrs. apply andb_prop in Hrs as [Hr Hrs].
    rewrite serve_all_cons. apply IH; [exact Hrs|].
    apply users_stay_sequential; [|exact Hseq].
    now destruct (is_delete_user r). }
  assert (Hitems : forall w,
            forallb (fun r => negb (is_delete_item r)) rs = true ->
            sequential (items_db w) ->
            sequential (items_db (snd (serve_all now_iso str_lower
                                         float_of_str rs w)))).
  { clear Husers.
    induction rs as [|r rs IH]; intros w Hrs Hseq; [exact Hseq|].
    simpl in Hrs. apply andb_prop in Hrs as [Hr Hrs].
    rewrite serve_all_cons. apply IH; [exact Hrs|].
    apply items_stay_sequential; [|exact Hseq].
    now destruct (is_delete_item r). }
  split; intros Hrs.
  - pose proof (Husers initial Hrs eq_refl) as Hseq.
    split; [exact Hseq|]. unfold Dict.mem.
    now rewrite sequential_fresh.
  - pose proof (Hitems initial Hrs eq_refl) as Hseq.
    split; [exact Hseq|]. unfold Dict.mem.
    now rewrite sequential_fresh.
Qed.

End Ids.

(** ** How the requests compose *)

Section RoundTrips.

Variable now_iso : nat -> string.
Variable str_lower : string -> string.
Variable float_of_str : string -> option spec_float.

(** What a [POST /users] answered with 201 has done. *)
Lemma created_user (data : json) (w : world) :
  status (fst (serve now_iso str_lower float_of_str (PostUsers data) w)) = 201 ->
  exists u,
    user_id u = str (Dict.len (users_db w) + 1)
    /\ serve now_iso str_lower float_of_str (PostUsers data) w
       = ({| body := user_json u; status := 201 |},
          {| users_db := Dict.set (user_id u) u (users_db w);
             items_db := items_db w;
             clock_reads := S (S (clock_reads w)) |}).
Proof.
  unfold serve, handle.
  destruct (object_or_not data) as [[kvs ->]|Hnot].
  - rewrite create_user_object.
    destruct (assoc "name" kvs) as [name|]; [|discriminate].
    destruct (truthy name); [|discriminate].
    cbv zeta. intros _.
    match goal with |- context [Dict.set _ ?x _] => exists x end.
    split; reflexivity.
  - rewrite create_user_other by assumption.
    destruct (truthy data); discriminate.
Qed.

Lemma get_user_stored (uid : string) (u : user) (w : world) :
  Dict.lookup uid (users_db w) = Some u ->
  serve now_iso str_lower float_of_str (GetUser uid) w
  = ({| body := user_json u; status := 200 |}, w).
Proof. intros H. unfold serve, handle, get_user. run. now rewrite H. Qed.

(** What a [PUT /users/<uid>] answered with 200 has done. *)
Lemma updated_user (uid : string) (data : json) (w : world) :
  status (fst (serve now_iso str_lower float_of_str (PutUser uid data) w)) = 200 ->
  exists u u',
    Dict.lookup uid (users_db w) = Some u
    /\ user_id u' = user_id u
    /\ user_created_at u' = user_created_at u
    /\ user_updated_at u' = now_iso (clock_reads w)
    /\ serve now_iso str_lower float_of_str (PutUser uid data) w
       = ({| body := user_json u'; status := 200 |}, restamped uid u' w).
Proof.
  unfold serve, handle.
  destruct (Dict.lookup uid (users_db w)) as [u|] eqn:Hstored;
    [|rewrite update_user_unknown by assumption; discriminate].
  destruct (object_or_not data) as [[kvs ->]|Hnot].
  - rewrite (update_user_object now_iso uid kvs w u Hstored).
    cbv zeta. intros _.
    match goal with |- context [restamped _ ?x _] => exists u, x end.
    repeat split.
  - rewrite (update_user_other now_iso uid data w u Hstored Hnot).
    destruct (contains "name" data) as [?|[|]]; try discriminate;
      destruct (contains "email" data) as [?|[|]]; try discriminate.
    cbv zeta. intros _.
    match goal with |- context [restamped _ ?x _] => exists u, x end.
    repeat split.
Qed.

(** X7. After a [POST /users] answered with 201, [GET /users/<id>] on
    the [id] of the answer returns the same user with status 200, also
    when that id was in use before. *)
Theorem create_user_then_get (data : json) (w : world) :
  let created := fst (serve now_iso str_lower float_of_str (PostUsers data) w) in
  let w1 := snd (serve now_iso str_lower float_of_str (PostUsers data) w) in
  status created = 201 ->
  exists k,
    get (body created) "id" JNull = inr (JStr k)
    /\ serve now_iso str_lower float_of_str (GetUser k) w1
       = ({| body := body created; status := 200 |}, w1).
Proof.
  cbv zeta. intros Hcreated.
  destruct (created_user data w Hcreated) as [u [Hid Hrun]].
  rewrite Hrun. cbn [fst snd body]. exists (user_id u).
  split; [reflexivity|].
  apply get_user_stored. cbn [users_db].
  apply DictFacts.lookup_set_same.
Qed.

(** X8. After a [POST /users] answered with 201 on an id that was not
    in use, [DELETE /users/<id>] returns the created user with status
    200 and leaves both stores as they were before the creation. *)
Theorem create_user_then_delete (data : json) (w : world) :
  let created := fst (serve now_iso str_lower float_of_str (PostUsers data) w) in
  let w1 := snd (serve now_iso str_lower float_of_str (PostUsers data) w) in
  status created = 201 ->
  Dict.mem (str (Dict.len (users_db w) + 1)) (users_db w) = false ->
  exists k,
    get (body created) "id" JNull = inr (JStr k)
    /\ fst (serve now_iso str_lower float_of_str (DeleteUser k) w1)
       = {| body := JObj [("message", JStr user_deleted);
                          ("user", body created)];
            status := 200 |}
    /\ users_db (snd (serve now_iso str_lower float_of_str (DeleteUser k) w1))
       = users_db w
    /\ items_db (snd (serve now_iso str_lower float_of_str (DeleteUser k) w1))
       = items_db w.
Proof.
  cbv zeta. intros Hcreated Hfresh.
  destruct (created_user data w Hcreated) as [u [Hid Hrun]].
  rewrite Hrun. cbn [fst snd body]. exists (user_id u).
  split; [reflexivity|].
  unfold serve, handle, delete_user. run. cbn [users_db items_db].
  rewrite DictFacts.lookup_set_same. cbn [fst snd users_db items_db set_users].
  repeat split.
  apply DictMore.remove_set_new. rewrite Hid.
  unfold Dict.mem in Hfresh.
  now destruct (Dict.lookup _ (users_db w)).
Qed.

(** X9. After a [PUT /users/<id>] answered with 200, whatever its body,
    [GET /users/<id>] returns the very same answer. *)
Theorem update_user_then_get (uid : string) (data : json) (w : world) :
  let updated := fst (serve now_iso str_lower float_of_str (PutUser uid data) w) in
  let w1 := snd (serve now_iso str_lower float_of_str (PutUser uid data) w) in
  status updated = 200 ->
  serve now_iso str_lower float_of_str (GetUser uid) w1 = (updated, w1).
Proof.
  cbv zeta. intros Hupdated.
  destruct (updated_user uid data w Hupdated) as [u [u' [_ [_ [_ [_ Hrun]]]]]].
  rewrite Hrun. cbn [fst snd].
  apply get_user_stored. apply DictFacts.lookup_set_same.
Qed.

(** X10. After a [POST /users] answered with 201 on an id that was not
    in use, [GET /users] lists the users that were stored, in the same
    order, then the created one, and counts one more. *)
Theorem create_user_then_list (data : json) (w : world) :
  let created := fst (serve now_iso str_lower float_of_str (PostUsers data) w) in
  let w1 := snd (serve now_iso str_lower float_of_str (PostUsers data) w) in
  status created = 201 ->
  Dict.mem (str (Dict.len (users_db w) + 1)) (users_db w) = false ->
  serve now_iso str_lower float_of_str GetUsers w1
  = ({| body := JObj [("users",
                       JArr (map user_json (Dict.values (users_db w))
                             ++ [body created]));
                      ("count", JInt (Z.of_nat (S (Dict.len (users_db w)))))];
        status := 200 |}, w1).
Proof.
  cbv zeta. intros Hcreated Hfresh.
  destruct (created_user data w Hcreated) as [u [Hid Hrun]].
  rewrite Hrun. cbn [fst snd body].
  assert (Hnew : Dict.lookup (user_id u) (users_db w) = None).
  { rewrite Hid. unfold Dict.mem in Hfresh.
    now destruct (Dict.lookup _ (users_db w)). }
  unfold serve, handle, get_users. run. cbn [users_db].
  rewrite DictMore.values_set_new, DictFacts.len_set_new by assumption.
  now rewrite map_app.
Qed.

(** X11. [PUT /users/<id>] never adds or removes a user and never
    changes another user, whatever its body and however it ends; and
    whatever the body says, the [id] and the [created_at] of the user
    stay what they were. *)
Theorem update_user_touches_one (uid : string) (data : json) (w : world) :
  let w1 := snd (serve now_iso str_lower float_of_str (PutUser uid data) w) in
  Dict.keys (users_db w1) = Dict.keys (users_db w)
  /\ (forall k, k <> uid ->
        Dict.lookup k (users_db w1) = Dict.lookup k (users_db w))
  /\ (forall u, Dict.lookup uid (users_db w) = Some u ->
        exists u', Dict.lookup uid (users_db w1) = Some u'
                   /\ user_id u' = user_id u
                   /\ user_created_at u' = user_created_at u).
Proof.
  cbv zeta.
  destruct (Nat.eq_dec
              (status (fst (serve now_iso str_lower float_of_str
                              (PutUser uid data) w))) 200) as [Hok|Hnot].
  - destruct (updated_user uid data w Hok)
      as [u [u' [Hstored [Hid [Hcreated [_ Hrun]]]]]].
    rewrite Hrun. cbn [snd restamped users_db]. repeat split.
    + apply DictFacts.keys_set_known. unfold Dict.mem. now rewrite Hstored.
    + intros k Hk. apply DictFacts.lookup_set_other. congruence.
    + intros u0 Hu0. exists u'. rewrite DictFacts.lookup_set_same.
      repeat split; congruence.
  - assert (Hsame : snd (serve now_iso str_lower float_of_str
                           (PutUser uid data) w) = w).
    { destruct (serve_outcome now_iso str_lower float_of_str
                  (PutUser uid data) w) as [[H|H] | [_ H]];
        [contradiction | | exact H].
      exfalso. revert H. unfold serve, handle.
      destruct (Dict.lookup uid (users_db w)) as [u|] eqn:Hstored;
        [|rewrite update_user_unknown by assumption; discriminate].
      destruct (object_or_not data) as [[kvs ->]|Hno].
      - rewrite (update_user_object now_iso uid kvs w u Hstored). discriminate.
      - rewrite (update_user_other now_iso uid data w u Hstored Hno).
        destruct (contains "name" data) as [?|[|]]; try discriminate;
          destruct (contains "email" data) as [?|[|]]; discriminate. }
    rewrite Hsame. repeat split. intros u Hu. now exists u.
Qed.

End RoundTrips.

(** ** Items *)

Section Items.

Variable now_iso : nat -> string.
Variable str_lower : string -> string.
Variable float_of_str : string -> option spec_float.

(** X12. [delete_item] answers 404 and changes nothing when the id is
    not stored. Otherwise it removes the entry, leaving the others, and
    answers 200 with a message and the removed item; deleting the same
    id again answers 404. *)
Theorem delete_item_removes (iid : string) (w : world) :
  Dict.wf (items_db w) ->
  match Dict.lookup iid (items_db w) with
  | None =>
      delete_item iid w = (inr (error_response item_not_found 404), w)
  | Some i =>
      let w' := {| users_db := users_db w;
                   items_db := Dict.remove iid (items_db w);
                   clock_reads := clock_reads w |} in
      delete_item iid w
        = (inr {| body := JObj [("message", JStr item_deleted);
                                ("item", item_json i)];
                  status := 200 |}, w')
      /\ Dict.lookup iid (items_db w') = None
      /\ (forall k, k <> iid ->
            Dict.lookup k (items_db w') = Dict.lookup k (items_db w))
      /\ S (Dict.len (items_db w')) = Dict.len (items_db w)
      /\ delete_item iid w'
           = (inr (error_response item_not_found 404), w')
  end.
Proof.
  intros Hwf.
  destruct (Dict.lookup iid (items_db w)) as [i|] eqn:Hstored.
  - intros w'.
    assert (Hgone : Dict.lookup iid (items_db w') = None)
      by now apply DictFacts.lookup_remove_same.
    split; [unfold delete_item; run; now rewrite Hstored|].
    split; [assumption|].
    split; [intros k Hk; apply DictFacts.lookup_remove_other; congruence|].
    split; [eapply DictFacts.len_remove; eassumption|].
    unfold delete_item. run. now rewrite Hgone.
  - unfold delete_item. run. now rewrite Hstored.
Qed.

(** X13. As soon as one stored item has a name that is not a string,
    every [GET /items] with a non-empty [q] is answered with the 500
    response, whatever [q] and the other items are, while the listing
    without [q] still answers 200. *)
Theorem bad_name_breaks_search (w : world) (i : item) (q : string) :
  In i (Dict.values (items_db w)) ->
  (forall s, item_name i <> JStr s) ->
  q <> "" ->
  serve now_iso str_lower float_of_str (GetItems (Some q)) w
    = (internal_error AttributeError, w)
  /\ status (fst (serve now_iso str_lower float_of_str (GetItems None) w))
     = 200.
Proof.
  intros Hin Hname Hq. split; [|reflexivity].
  unfold serve, handle, get_items. run.
  assert (Htruthy : truthy (JStr q) = true).
  { cbn [truthy]. destruct (String.eqb q "") eqn:E; [|reflexivity].
    apply String.eqb_eq in E. contradiction. }
  rewrite Htruthy.
  now rewrite (matching_name_not_str str_lower q _ i Hin Hname).
Qed.

Lemma append_empty (s : string) : (s ++ "")%string = s.
Proof. induction s as [|c s IH]; simpl; congruence. Qed.

Lemma str_contains_itself (s : string) : str_contains s s = true.
Proof.
  apply str_contains_split. exists "", "". simpl. now rewrite append_empty.
Qed.

(** X14. When every stored item has a string for name, searching for
    the full name of a stored item finds it; what a search returns is
    made of stored items, and the count it gives is the number of
    returned items, at most the number of stored ones. *)
Theorem search_finds_full_name (w : world) (i : item) (s : string) :
  names_are_str w ->
  In i (Dict.values (items_db w)) ->
  item_name i = JStr s ->
  exists kept,
    serve now_iso str_lower float_of_str (GetItems (Some s)) w
      = ({| body := JObj [("items", JArr (map item_json kept));
                          ("count", JInt (Z.of_nat (List.length kept)));
                          ("query", JStr s)];
            status := 200 |}, w)
    /\ In i kept
    /\ incl kept (Dict.values (items_db w))
    /\ List.length kept <= Dict.len (items_db w).
Proof.
  intros Hstr Hin Hname.
  assert (Hlen : forall kept,
            incl kept (Dict.values (items_db w)) ->
            List.length kept <= List.length (Dict.values (items_db w)) ->
            List.length kept <= Dict.len (items_db w)).
  { intros kept _ H. unfold Dict.len.
    now rewrite <- (length_map snd (items_db w)). }
  destruct (String.eqb s "") eqn:Hs.
  - apply String.eqb_eq in Hs. subst s.
    exists (Dict.values (items_db w)).
    split; [reflexivity|]. split; [exact Hin|].
    split; [apply incl_refl|]. apply Hlen; [apply incl_refl | apply le_n].
  - exists (filter (name_matches str_lower s) (Dict.values (items_db w))).
    split; [|split; [|split]].
    + unfold serve, handle, get_items. run.
      assert (Htruthy : truthy (JStr s) = true)
        by (cbn [truthy]; now rewrite Hs).
      now rewrite Htruthy, matching_names_str by exact Hstr.
    + apply filter_In. split; [exact Hin|].
      unfold name_matches. rewrite Hname. apply str_contains_itself.
    + apply incl_filter.
    + apply Hlen; [apply incl_filter | apply filter_length_le].
Qed.

(** X15. [POST /items] answers 201 exactly when the body is an object
    with the keys [name] and [price] and a [price] that [float] accepts.
    A body that is not an object never creates an item: it is answered
    with 400 when one of the two membership tests fails, and with 500
    otherwise. *)
Theorem create_item_status (data : json) (w : world) :
  let resp := fst (serve now_iso str_lower float_of_str (PostItems data) w) in
  (status resp = 201 <-> exists kvs name raw price,
      data = JObj kvs /\ assoc "name" kvs = Some name
      /\ assoc "price" kvs = Some raw
      /\ float float_of_str raw = inr price)
  /\ ((forall kvs, data <> JObj kvs) ->
      (status resp = 400
       <-> contains "name" data = inr false
           \/ (contains "name" data = inr true
               /\ contains "price" data = inr false))
      /\ (status resp <> 400 -> status resp = 500)).
Proof.
  cbv zeta. unfold serve, handle.
  destruct (object_or_not data) as [[kvs ->]|Hnot].
  - split; [|intros H; now destruct (H kvs)].
    rewrite create_item_object.
    destruct (assoc "name" kvs) as [name|] eqn:Hname.
    + destruct (assoc "price" kvs) as [raw|] eqn:Hprice.
      * destruct (float float_of_str raw) as [e|price] eqn:Hfloat;
          cbn [fst status internal_error]; split; try discriminate.
        -- intros [kvs' [n' [r' [p' [H [H1 [H2 H3]]]]]]].
           injection H as <-. congruence.
        -- intros _. exists kvs, name, raw, price. auto.
        -- reflexivity.
      * cbn [fst status error_response]. split; [discriminate|].
        intros [kvs' [n' [r' [p' [H [H1 [H2 H3]]]]]]].
        injection H as <-. congruence.
    + cbn [fst status error_response]. split; [discriminate|].
      intros [kvs' [n' [r' [p' [H [H1 [H2 H3]]]]]]].
      injection H as <-. congruence.
  - rewrite create_item_other by assumption.
    split.
    + split.
      * destruct (contains "name" data) as [?|[|]];
          try destruct (contains "price" data) as [?|[|]]; discriminate.
      * intros [kvs [n' [r' [p' [H _]]]]]. now destruct (Hnot kvs).
    + intros _.
      destruct (contains "name" data) as [?|[|]];
        try destruct (contains "price" data) as [?|[|]];
        cbn [fst status error_response internal_error];
        (split; [split|]);
        try reflexivity; try discriminate; try tauto;
        try (intros [H|[H H']]; discriminate);
        try (intros _; now left); try (intros _; right; now split);
        try (intros H; now destruct H).
Qed.

End Items.

(** ** Updates with an unusual body *)

Section Updates.

Variable now_iso : nat -> string.
Variable str_lower : string -> string.
Variable float_of_str : string -> option spec_float.

(** X16. On a stored id, [PUT /users/<id>] with a body that is not an
    object answers 200, giving the user a new [updated_at] and nothing
    else, when the body is a string or an array that mentions neither
    [name] nor [email]; with any other such body ([None], a boolean, a
    number, or a string or array that mentions one of the two) it
    answers 500 and changes nothing. *)
Theorem update_user_body_not_object
    (uid : string) (data : json) (w : world) (u : user) :
  Dict.lookup uid (users_db w) = Some u ->
  (forall kvs, data <> JObj kvs) ->
  let mentions_neither :=
    contains "name" data = inr false /\ contains "email" data = inr false in
  (mentions_neither ->
   let u' := {| user_id := user_id u;
                user_name := user_name u;
                user_email := user_email u;
                user_created_at := user_created_at u;
                user_updated_at := now_iso (clock_reads w) |} in
   serve now_iso str_lower float_of_str (PutUser uid data) w
   = ({| body := user_json u'; status := 200 |},
      {| users_db := Dict.set uid u' (users_db w);
         items_db := items_db w;
         clock_reads := S (clock_reads w) |}))
  /\ (~ mentions_neither ->
      exists e,
        serve now_iso str_lower float_of_str (PutUser uid data) w
        = (internal_error e, w)).
Proof.
  intros Hstored Hnot. cbv zeta. unfold serve, handle.
  rewrite (update_user_other now_iso uid data w u Hstored Hnot).
  split.
  - intros [-> ->]. reflexivity.
  - intros Hsome.
    destruct (contains "name" data) as [e|[|]];
      try (eexists; reflexivity);
      destruct (contains "email" data) as [e|[|]];
      try (eexists; reflexivity).
    destruct Hsome. now split.
Qed.

End Updates.

(** ** Deleting, then creating *)

Section Reuse.

Variable now_iso : nat -> string.
Variable str_lower : string -> string.
Variable float_of_str : string -> option spec_float.

Lemma sequential_newest {V} (d : Dict.t V) :
  sequential d -> Dict.len d <> 0 ->
  exists v, Dict.lookup (str (Dict.len d)) d = Some v.
Proof.
  intros Hseq Hlen.
  destruct (Dict.lookup (str (Dict.len d)) d) as [v|] eqn:E; [now exists v|].
  apply DictFacts.lookup_None in E. destruct E.
  rewrite Hseq. apply in_map, in_seq. lia.
Qed.

(** X17. In a store whose ids are still sequential, deleting any user
    but the newest makes the next [POST /users] take the id of the
    newest user, who is still stored, and replace that user: after the
    two requests two users are gone and one has come. *)
Theorem delete_then_create_overwrites
    (uid : string) (data : json) (w : world) :
  sequential (users_db w) ->
  Dict.mem uid (users_db w) = true ->
  uid <> str (Dict.len (users_db w)) ->
  let w1 := snd (serve now_iso str_lower float_of_str (DeleteUser uid) w) in
  let created := fst (serve now_iso str_lower float_of_str (PostUsers data) w1) in
  let w2 := snd (serve now_iso str_lower float_of_str (PostUsers data) w1) in
  status created = 201 ->
  exists newest u,
    Dict.lookup (str (Dict.len (users_db w))) (users_db w1) = Some newest
    /\ created = {| body := user_json u; status := 201 |}
    /\ user_id u = str (Dict.len (users_db w))
    /\ Dict.lookup (str (Dict.len (users_db w))) (users_db w2) = Some u
    /\ S (Dict.len (users_db w2)) = Dict.len (users_db w).
Proof.
  intros Hseq Hmem Hnewest. cbv zeta.
  unfold Dict.mem in Hmem.
  destruct (Dict.lookup uid (users_db w)) as [gone|] eqn:Hstored;
    [clear Hmem | discriminate].
  pose proof (DictFacts.len_remove uid gone (users_db w) Hstored) as Hlen.
  assert (Hdelete : snd (serve now_iso str_lower float_of_str (DeleteUser uid) w)
                    = set_users (Dict.remove uid (users_db w)) w).
  { unfold serve, handle, delete_user. run. now rewrite Hstored. }
  rewrite Hdelete. intros Hcreated.
  destruct (created_user now_iso str_lower float_of_str data _ Hcreated)
    as [u [Hid Hrun]].
  cbn [users_db set_users] in Hid, Hrun.
  assert (Hnext : Dict.len (Dict.remove uid (users_db w)) + 1
                  = Dict.len (users_db w)) by lia.
  rewrite Hnext in Hid.
  destruct (sequential_newest (users_db w) Hseq) as [newest Hnewest'].
  { lia. }
  exists newest, u. rewrite Hrun. cbn [fst snd users_db set_users].
  split; [|split; [reflexivity|split; [exact Hid|split]]].
  - now rewrite DictFacts.lookup_remove_other by exact Hnewest.
  - rewrite Hid. apply DictFacts.lookup_set_same.
  - rewrite DictFacts.len_set_known; [exact Hlen|].
    unfold Dict.mem. rewrite Hid.
    now rewrite DictFacts.lookup_remove_other, Hnewest' by exact Hnewest.
Qed.

End Reuse.

(** ** The further properties at concrete requests *)

(** [POST /items] without a body on a world with one user. *)
Lemma errors_change_nothing_witness :
  400 <= status (fst (serve ticking_clock ascii_lower float_of_decimal
                        (PostItems JNull) one_user))
  /\ snd (serve ticking_clock ascii_lower float_of_decimal
            (PostItems JNull) one_user) = one_user.
Proof.
  assert (H : 400 <= status (fst (serve ticking_clock ascii_lower
                                    float_of_decimal (PostItems JNull)
                                    one_user)))
    by (apply Nat.leb_le; reflexivity).
  split; [exact H|].
  exact (errors_change_nothing ticking_clock ascii_lower float_of_decimal
           (PostItems JNull) one_user H).
Defined.

(** [POST /users] on a world with two items. *)
Lemma stores_are_independent_witness :
  on_users (PostUsers alice) = true
  /\ items_db (snd (serve ticking_clock ascii_lower float_of_decimal
                      (PostUsers alice) two_items))
     = items_db two_items.
Proof.
  split; [reflexivity|].
  exact (proj1 (stores_are_independent ticking_clock ascii_lower
                  float_of_decimal (PostUsers alice) two_items) eq_refl).
Defined.

(** Two users and an item created, the item deleted: the users are
    ["1"] and ["2"]. *)
Lemma ids_sequential_without_delete_witness :
  let rs := [PostUsers alice; PostItems widget; DeleteItem "1";
             PostUsers alice] in
  forallb (fun r => negb (is_delete_user r)) rs = true
  /\ Dict.keys (users_db (snd (serve_all ticking_clock ascii_lower
                                 float_of_decimal rs initial)))
     = ["1"; "2"].
Proof.
  cbv zeta. split; [reflexivity|].
  destruct (proj1 (ids_sequential_without_delete ticking_clock ascii_lower
                     float_of_decimal
                     [PostUsers alice; PostItems widget; DeleteItem "1";
                      PostUsers alice]) eq_refl) as [Hkeys _].
  rewrite Hkeys. reflexivity.
Defined.

(** The user stored under ["1"] after creating [alice]. *)
Lemma stored_under_own_id_witness :
  exists u,
    Dict.lookup "1" (users_db one_user) = Some u /\ user_id u = "1".
Proof.
  destruct (Dict.lookup "1" (users_db one_user)) as [u|] eqn:Hu;
    [|discriminate Hu].
  exists u. split; [reflexivity|].
  exact (proj1 (stored_under_own_id ticking_clock ascii_lower
                  float_of_decimal [PostUsers alice] "1") u Hu).
Defined.

(** [POST /users] with [alice], then [GET /users/1]. *)
Lemma create_user_then_get_witness :
  status (fst (serve ticking_clock ascii_lower float_of_decimal
                 (PostUsers alice) initial)) = 201
  /\ serve ticking_clock ascii_lower float_of_decimal (GetUser "1") one_user
     = ({| body := body (fst (serve ticking_clock ascii_lower
                                float_of_decimal (PostUsers alice) initial));
           status := 200 |}, one_user).
Proof.
  split; [reflexivity|].
  destruct (create_user_then_get ticking_clock ascii_lower float_of_decimal
              alice initial eq_refl) as [k [Hk Hget]].
  injection Hk as <-. exact Hget.
Defined.

(** [POST /users] with [alice], then [DELETE /users/1]. *)
Lemma create_user_then_delete_witness :
  status (fst (serve ticking_clock ascii_lower float_of_decimal
                 (PostUsers alice) initial)) = 201
  /\ Dict.mem (str (Dict.len (users_db initial) + 1)) (users_db initial)
     = false
  /\ users_db (snd (serve ticking_clock ascii_lower float_of_decimal
                      (DeleteUser "1") one_user))
     = users_db initial.
Proof.
  split; [reflexivity|]. split; [reflexivity|].
  destruct (create_user_then_delete ticking_clock ascii_lower
              float_of_decimal alice initial eq_refl eq_refl)
    as [k [Hk [_ [Husers _]]]].
  injection Hk as <-. exact Husers.
Defined.

(** [PUT /users/1] with a new [name], then [GET /users/1]. *)
Lemma update_user_then_get_witness :
  let put := PutUser "1" (JObj [("name", JStr "Alicia")]) in
  status (fst (serve ticking_clock ascii_lower float_of_decimal put one_user))
  = 200
  /\ fst (serve ticking_clock ascii_lower float_of_decimal (GetUser "1")
            (snd (serve ticking_clock ascii_lower float_of_decimal put
                    one_user)))
     = fst (serve ticking_clock ascii_lower float_of_decimal put one_user).
Proof.
  cbv zeta. split; [reflexivity|].
  rewrite (update_user_then_get ticking_clock ascii_lower float_of_decimal
             "1" (JObj [("name", JStr "Alicia")]) one_user eq_refl).
  reflexivity.
Defined.

(** [POST /users] with [alice] on a world with one user, then
    [GET /users]. *)
Lemma create_user_then_list_witness :
  status (fst (serve ticking_clock ascii_lower float_of_decimal
                 (PostUsers alice) one_user)) = 201
  /\ Dict.mem (str (Dict.len (users_db one_user) + 1)) (users_db one_user)
     = false
  /\ get (body (fst (serve ticking_clock ascii_lower float_of_decimal
                       GetUsers two_users))) "count" JNull
     = inr (JInt 2).
Proof.
  split; [reflexivity|]. split; [reflexivity|].
  change two_users
    with (snd (serve ticking_clock ascii_lower float_of_decimal
                 (PostUsers alice) one_user)).
  rewrite (create_user_then_list ticking_clock ascii_lower float_of_decimal
             alice one_user eq_refl eq_refl).
  reflexivity.
Defined.

(** [DELETE /items/1] on a world with two items. *)
Lemma delete_item_removes_witness :
  Dict.wf (items_db two_items)
  /\ status (fst (serve ticking_clock ascii_lower float_of_decimal
                    (DeleteItem "1") two_items)) = 200
  /\ Dict.len (items_db (snd (serve ticking_clock ascii_lower
                                float_of_decimal (DeleteItem "1")
                                two_items))) = 1.
Proof.
  assert (Hwf : Dict.wf (items_db two_items)).
  { repeat constructor; simpl; intuition discriminate. }
  split; [exact Hwf|].
  pose proof (delete_item_removes "1" two_items Hwf) as H.
  destruct (Dict.lookup "1" (items_db two_items)) as [i|] eqn:Hi;
    [|discriminate Hi].
  cbv zeta in H. destruct H as [Hrun _].
  unfold serve, handle. rewrite Hrun. split; reflexivity.
Defined.

(** A search on a world whose only item is named [5]. *)
Lemma bad_name_breaks_search_witness :
  (exists i, In i (Dict.values (items_db numbered_item))
             /\ item_name i = JInt 5)
  /\ serve ticking_clock ascii_lower float_of_decimal
       (GetItems (Some "wid")) numbered_item
     = (internal_error AttributeError, numbered_item).
Proof.
  split; [eexists; split; [left; reflexivity | reflexivity]|].
  refine (proj1 (bad_name_breaks_search ticking_clock ascii_lower
                   float_of_decimal numbered_item _ "wid"
                   (or_introl eq_refl) _ _)).
  - intros s H. discriminate H.
  - discriminate.
Defined.

(** A search for [Widget] on a world with Widget and Gadget. *)
Lemma search_finds_full_name_witness :
  names_are_str two_items
  /\ exists i kept,
       item_name i = JStr "Widget"
       /\ In i (Dict.values (items_db two_items))
       /\ fst (serve ticking_clock ascii_lower float_of_decimal
                 (GetItems (Some "Widget")) two_items)
          = {| body := JObj [("items", JArr (map item_json kept));
                             ("count", JInt (Z.of_nat (List.length kept)));
                             ("query", JStr "Widget")];
               status := 200 |}
       /\ In i kept.
Proof.
  assert (Hstr : names_are_str two_items).
  { intros i [<-|[<-|[]]]; eexists; reflexivity. }
  split; [exact Hstr|].
  destruct (Dict.values (items_db two_items)) as [|i rest] eqn:Hvalues;
    [discriminate Hvalues|].
  assert (Hin : In i (Dict.values (items_db two_items)))
    by (rewrite Hvalues; now left).
  assert (Hname : item_name i = JStr "Widget")
    by (injection Hvalues as <- _; reflexivity).
  destruct (search_finds_full_name ticking_clock ascii_lower float_of_decimal
              two_items i "Widget" Hstr Hin Hname)
    as [kept [Hrun [Hkept _]]].
  exists i, kept. rewrite Hrun. rewrite <- Hvalues. auto.
Defined.

(** [POST /items] with the JSON string ["name price"] for body. *)
Lemma create_item_status_witness :
  (forall kvs, JStr "name price" <> JObj kvs)
  /\ status (fst (serve ticking_clock ascii_lower float_of_decimal
                    (PostItems (JStr "name price")) initial)) = 500.
Proof.
  assert (Hnot : forall kvs, JStr "name price" <> JObj kvs)
    by (intros kvs H; discriminate H).
  split; [exact Hnot|].
  destruct (create_item_status ticking_clock ascii_lower float_of_decimal
              (JStr "name price") initial) as [_ Hother].
  destruct (Hother Hnot) as [_ Hserver].
  apply Hserver. discriminate.
Defined.

(** [PUT /users/1] with the JSON string ["hello"] for body. *)
Lemma update_user_body_not_object_witness :
  (exists u, Dict.lookup "1" (users_db one_user) = Some u)
  /\ (forall kvs, JStr "hello" <> JObj kvs)
  /\ status (fst (serve ticking_clock ascii_lower float_of_decimal
                    (PutUser "1" (JStr "hello")) one_user)) = 200.
Proof.
  assert (Hnot : forall kvs, JStr "hello" <> JObj kvs)
    by (intros kvs H; discriminate H).
  destruct (Dict.lookup "1" (users_db one_user)) as [u|] eqn:Hu;
    [|discriminate Hu].
  split; [now exists u|]. split; [exact Hnot|].
  destruct (update_user_body_not_object ticking_clock ascii_lower
              float_of_decimal "1" (JStr "hello") one_user u Hu Hnot)
    as [Hok _].
  rewrite Hok by (split; reflexivity). reflexivity.
Defined.

(** Two users, [DELETE /users/1], then [POST /users]: the second user
    is replaced. *)
Lemma delete_then_create_overwrites_witness :
  sequential (users_db two_users)
  /\ Dict.mem "1" (users_db two_users) = true
  /\ "1" <> str (Dict.len (users_db two_users))
  /\ Dict.len (users_db
       (snd (serve_all ticking_clock ascii_lower float_of_decimal
               [DeleteUser "1"; PostUsers alice] two_users))) = 1.
Proof.
  assert (Hseq : sequential (users_db two_users)) by reflexivity.
  assert (Hne : "1" <> str (Dict.len (users_db two_users)))
    by discriminate.
  split; [exact Hseq|]. split; [reflexivity|]. split; [exact Hne|].
  destruct (delete_then_create_overwrites ticking_clock ascii_lower
              float_of_decimal "1" alice two_users Hseq eq_refl Hne eq_refl)
    as [newest [u [_ [_ [_ [_ Hlen]]]]]].
  rewrite serve_all_cons, serve_all_cons. cbn [serve_all snd].
  apply eq_add_S. exact Hlen.
Defined.

(** [GET /users/9] on a world whose only user is ["1"]. *)
Lemma handler_returns_success_or_error_witness :
  handle ticking_clock ascii_lower float_of_decimal (GetUser "9") one_user
    = (inr (error_response user_not_found 404), one_user)
  /\ status (error_response user_not_found 404) = 404
  /\ has_id (GetUser "9") = true
  /\ exists msg,
       body (error_response user_not_found 404) = JObj [("error", JStr msg)].
Proof.
  assert (Hrun : handle ticking_clock ascii_lower float_of_decimal
                   (GetUser "9") one_user
                 = (inr (error_response user_not_found 404), one_user))
    by reflexivity.
  split; [exact Hrun|]. split; [reflexivity|]. split; [reflexivity|].
  destruct (handler_returns_success_or_error ticking_clock ascii_lower
              float_of_decimal (GetUser "9") one_user one_user _ Hrun)
    as [_ Hbody].
  apply Hbody. now right.
Defined.
